(** * Document lifecycle and controlled distribution

    A shallow embedding of the request handlers of [server/routes.ts]
    (create, approve, decline, issue, view as PDF, print, version list)
    over an explicit store, and the properties of the workflow state
    machine, the version resolver, the control copy ledger and the
    notification fan-out that follow from the handlers' code. *)

From Stdlib Require Import String Ascii List ZArith Bool Arith Lia DecimalString.
Import ListNotations.

Local Open Scope string_scope.
Local Open Scope list_scope.

(** ** JavaScript values the handlers rely on *)

Module Js.

(** Texts are held in their UTF-8 encoding. *)

(** A JavaScript number that holds an integer, one of the two infinities,
    or NaN.  The two zeros are one value: they are equal, neither is
    greater than the other and both are written 0. *)
Inductive num : Type :=
| Num (z : Z)
| NaN
| PosInfinity
| NegInfinity.

(** [a > b]: false as soon as one side is NaN. *)
Definition gt (a b : num) : bool :=
  match a, b with
  | Num x, Num y => (y <? x)%Z
  | PosInfinity, Num _ => true
  | PosInfinity, NegInfinity => true
  | Num _, NegInfinity => true
  | _, _ => false
  end.

(** [a === b] on numbers: NaN equals nothing. *)
Definition strict_eq (a b : num) : bool :=
  match a, b with
  | Num x, Num y => (x =? y)%Z
  | PosInfinity, PosInfinity => true
  | NegInfinity, NegInfinity => true
  | _, _ => false
  end.

Definition isNaN (a : num) : bool :=
  match a with NaN => true | _ => false end.

(** Truthiness of a possibly missing string: [undefined], [null] and
    the empty string are falsy. *)
Definition truthy (o : option string) : bool :=
  match o with
  | Some s => negb (s =? "")
  | None => false
  end.

(** [a || b] on possibly missing strings. *)
Definition or_else (a b : option string) : option string :=
  if truthy a then a else b.

(** A value interpolated in a template literal. *)
Definition show (o : option string) : string :=
  match o with
  | Some s => s
  | None => "undefined"
  end.

(** The white space and line terminator characters of one byte: TAB, LF,
    VT, FF, CR and SP. *)
Definition is_space (c : ascii) : bool :=
  let n := nat_of_ascii c in
  ((9 <=? n)%nat && (n <=? 13)%nat) || (n =? 32)%nat.

(** The one of two bytes: U+00A0. *)
Definition is_space2 (c1 c2 : ascii) : bool :=
  (nat_of_ascii c1 =? 194)%nat && (nat_of_ascii c2 =? 160)%nat.

(** Those of three bytes: U+1680, U+2000 to U+200A, U+2028, U+2029,
    U+202F, U+205F, U+3000 and U+FEFF. *)
Definition is_space3 (c1 c2 c3 : ascii) : bool :=
  let b1 := nat_of_ascii c1 in
  let b2 := nat_of_ascii c2 in
  let b3 := nat_of_ascii c3 in
  ((b1 =? 225) && (b2 =? 154) && (b3 =? 128))%nat
  || ((b1 =? 226) && (b2 =? 128)
      && (((128 <=? b3) && (b3 <=? 138))
          || (b3 =? 168) || (b3 =? 169) || (b3 =? 175)))%nat
  || ((b1 =? 226) && (b2 =? 129) && (b3 =? 159))%nat
  || ((b1 =? 227) && (b2 =? 128) && (b3 =? 128))%nat
  || ((b1 =? 239) && (b2 =? 187) && (b3 =? 191))%nat.

Definition digit_of (c : ascii) : option Z :=
  let n := nat_of_ascii c in
  if ((48 <=? n)%nat && (n <=? 57)%nat) then Some (Z.of_nat (n - 48)) else None.

(** The text without its leading white space and line terminators. *)
Fixpoint skip_spaces (s : string) : string :=
  match s with
  | String c1 rest1 =>
      if is_space c1 then skip_spaces rest1
      else
        match rest1 with
        | String c2 rest2 =>
            if is_space2 c1 c2 then skip_spaces rest2
            else
              match rest2 with
              | String c3 rest3 =>
                  if is_space3 c1 c2 c3 then skip_spaces rest3 else s
              | EmptyString => s
              end
        | EmptyString => s
        end
  | EmptyString => s
  end.

(** The longest prefix of decimal digits, read most significant first;
    [None] when the text starts with no digit. *)
Fixpoint digits (s : string) (acc : option Z) : option Z :=
  match s with
  | String c rest =>
      match digit_of c with
      | Some d =>
          digits rest (Some (10 * match acc with Some a => a | None => 0 end + d)%Z)
      | None => acc
      end
  | EmptyString => acc
  end.

(** The Number value of a non-negative integer [m] with the given sign:
    [m] itself below 2^53; beyond, the nearest integer with 53
    significant bits, the even one on a tie; an infinity from 2^1024
    on. *)
Definition ofInteger (negative : bool) (m : Z) : num :=
  let v :=
    if (m <? 2 ^ 53)%Z then m
    else
      let e := (Z.log2 m - 52)%Z in
      let q := (m / 2 ^ e)%Z in
      let r := (m mod 2 ^ e)%Z in
      let half := (2 ^ (e - 1))%Z in
      ((if (half <? r)%Z || ((r =? half)%Z && Z.odd q)
        then q + 1 else q) * 2 ^ e)%Z in
  if (2 ^ 1024 <=? v)%Z
  then (if negative then NegInfinity else PosInfinity)
  else Num (if negative then (- v)%Z else v).

(** [parseInt(s, 10)]: leading white space is dropped, one sign is read,
    then the longest run of digits, whose value is rounded to a Number
    with every digit taken into account, as Node does; NaN when there is
    no digit. *)
Definition parseInt (s : string) : num :=
  match skip_spaces s with
  | String "-" rest =>
      match digits rest None with
      | Some v => ofInteger true v
      | None => NaN
      end
  | String "+" rest =>
      match digits rest None with
      | Some v => ofInteger false v
      | None => NaN
      end
  | t =>
      match digits t None with
      | Some v => ofInteger false v
      | None => NaN
      end
  end.

(** The double quote character, for the message templates. *)
Definition dq : string := String (ascii_of_nat 34) EmptyString.

End Js.

(** ** Rows of the store

    The row types are declared in [shared/schema.ts], whose text is not
    available; they are taken from section 3 of the specification, with
    the field names the handlers use. *)

(** Modelled from the spec: the [status] of a Document, written
    ["pending"], ["approved"], ["declined"] and ["issued"] by the
    handlers. *)
Inductive Status : Type := Pending | Approved | Declined | Issued.

Definition Status_eqb (a b : Status) : bool :=
  match a, b with
  | Pending, Pending | Approved, Approved
  | Declined, Declined | Issued, Issued => true
  | _, _ => false
  end.

(** Modelled from the spec: the [role] of a User. *)
Inductive Role : Type := creator | approver | issuer | recipient | admin.

Definition Role_eqb (a b : Role) : bool :=
  match a, b with
  | creator, creator | approver, approver | issuer, issuer
  | recipient, recipient | admin, admin => true
  | _, _ => false
  end.

(** Modelled from the spec: the [actionType] of a ControlCopy. *)
Inductive ActionType : Type := view | print.

(** A [Date], as an instant. *)
Definition Time := Z.

Module User.
(** Modelled from the spec: the User type of [shared/schema.ts]. *)
Record t : Type := mk {
  id : string;
  username : string;
  role : Role;
  fullName : string;
  masterCopyAccess : bool
}.
End User.

Module Doc.
(** Modelled from the spec: the Document type of [shared/schema.ts].  A
    missing optional field, [null] and [undefined] are all [None].  The
    date fields that no handler below reads or writes (dateOfIssue,
    duePeriodYears, reviewDueDate) and reasonForRevision are left out. *)
Record t : Type := mk {
  id : string;
  docName : string;
  docNumber : string;
  revisionNo : Js.num;
  status : Status;
  preparedBy : string;
  approvedBy : option string;
  issuedBy : option string;
  approvalRemarks : option string;
  declineRemarks : option string;
  issueRemarks : option string;
  issuerName : option string;
  approvedAt : option Time;
  issuedAt : option Time;
  wordFilePath : option string;
  headerInfo : string;
  footerInfo : string;
  previousVersionId : option string
}.
End Doc.

Module Notification.
(** Modelled from the spec: the Notification type of [shared/schema.ts]. *)
Record t : Type := mk {
  id : string;
  userId : string;
  documentId : string;
  message : string;
  type : string;
  read : bool;
  createdAt : Time
}.
End Notification.

Module ControlCopy.
(** Modelled from the spec: the ControlCopy type of [shared/schema.ts]. *)
Record t : Type := mk {
  id : string;
  documentId : string;
  userId : string;
  actionType : ActionType;
  copyNumber : nat;
  issuedAt : Time
}.
End ControlCopy.

Module PrintLog.
(** Modelled from the spec: the PrintLog type of [shared/schema.ts]. *)
Record t : Type := mk {
  id : string;
  documentId : string;
  userId : string;
  controlCopyId : string;
  medium : string;
  printedAt : Time
}.
End PrintLog.

(** ** The document store

    The text of [server/storage.ts] is not available; the handlers only
    reach it through the calls of [Storage] below, which follow sections
    4.3 and 6 of the specification. *)

(** Modelled from the spec: the rows the store holds, each kind in
    listing order. *)
Record Store : Type := mkStore {
  users : list User.t;
  documents : list Doc.t;
  documentDepartments : list (string * string);
  notifications : list Notification.t;
  controlCopies : list ControlCopy.t;
  printLogs : list PrintLog.t
}.

Definition set_documents (l : list Doc.t) (st : Store) : Store :=
  mkStore (users st) l (documentDepartments st) (notifications st)
          (controlCopies st) (printLogs st).

Definition set_documentDepartments (l : list (string * string)) (st : Store)
  : Store :=
  mkStore (users st) (documents st) l (notifications st)
          (controlCopies st) (printLogs st).

Definition set_notifications (l : list Notification.t) (st : Store) : Store :=
  mkStore (users st) (documents st) (documentDepartments st) l
          (controlCopies st) (printLogs st).

Definition set_controlCopies (l : list ControlCopy.t) (st : Store) : Store :=
  mkStore (users st) (documents st) (documentDepartments st) (notifications st)
          l (printLogs st).

Definition set_printLogs (l : list PrintLog.t) (st : Store) : Store :=
  mkStore (users st) (documents st) (documentDepartments st) (notifications st)
          (controlCopies st) l.

(** The fields a caller of [storage.createDocument] supplies. *)
Record InsertDocument : Type := mkInsertDocument {
  ins_docName : string;
  ins_docNumber : string;
  ins_revisionNo : Js.num;
  ins_preparedBy : string;
  ins_previousVersionId : option string;
  ins_headerInfo : string;
  ins_footerInfo : string
}.

(** The object literal passed to [storage.updateDocument]: a field is
    [None] when the literal has no such key, [Some v] when it has the key
    with value [v] ([null] and [undefined] are both the missing value). *)
Record DocPatch : Type := mkDocPatch {
  p_status : option Status;
  p_approvedBy : option (option string);
  p_issuedBy : option (option string);
  p_approvalRemarks : option (option string);
  p_declineRemarks : option (option string);
  p_issueRemarks : option (option string);
  p_issuerName : option (option string);
  p_approvedAt : option (option Time);
  p_issuedAt : option (option Time);
  p_wordFilePath : option (option string)
}.

Definition merge {A : Type} (old : A) (supplied : option A) : A :=
  match supplied with
  | Some v => v
  | None => old
  end.

Definition applyPatch (p : DocPatch) (d : Doc.t) : Doc.t :=
  Doc.mk (Doc.id d) (Doc.docName d) (Doc.docNumber d) (Doc.revisionNo d)
    (merge (Doc.status d) (p_status p))
    (Doc.preparedBy d)
    (merge (Doc.approvedBy d) (p_approvedBy p))
    (merge (Doc.issuedBy d) (p_issuedBy p))
    (merge (Doc.approvalRemarks d) (p_approvalRemarks p))
    (merge (Doc.declineRemarks d) (p_declineRemarks p))
    (merge (Doc.issueRemarks d) (p_issueRemarks p))
    (merge (Doc.issuerName d) (p_issuerName p))
    (merge (Doc.approvedAt d) (p_approvedAt p))
    (merge (Doc.issuedAt d) (p_issuedAt p))
    (merge (Doc.wordFilePath d) (p_wordFilePath p))
    (Doc.headerInfo d) (Doc.footerInfo d) (Doc.previousVersionId d).

Module Storage.

(** Modelled from the spec: [storage.getUser], the store's [get(id)] on
    User rows. *)
Definition getUser (st : Store) (uid : string) : option User.t :=
  find (fun u => User.id u =? uid) (users st).

(** Modelled from the spec: [storage.getUsersByRole], the User rows
    with the given role, in listing order. *)
Definition getUsersByRole (st : Store) (r : Role) : list User.t :=
  filter (fun u => Role_eqb (User.role u) r) (users st).

(** Modelled from the spec: [storage.getDocument], the store's
    [get(id)] on Document rows. *)
Definition getDocument (st : Store) (did : string) : option Doc.t :=
  find (fun d => Doc.id d =? did) (documents st).

(** Modelled from the spec: [storage.getDocumentsByStatus], the store's
    [listByStatus(status)], in listing order. *)
Definition getDocumentsByStatus (st : Store) (s : Status) : list Doc.t :=
  filter (fun d => Status_eqb (Doc.status d) s) (documents st).

(** Modelled from the spec: [storage.createDocument], the store's
    [create(entity)]: a new row at Pending under the identifier the
    store draws for it, appended to the listing. *)
Definition createDocument (st : Store) (newId : string) (i : InsertDocument)
  : Doc.t * Store :=
  let d := Doc.mk newId (ins_docName i) (ins_docNumber i) (ins_revisionNo i)
             Pending (ins_preparedBy i) None None None None None None
             None None None (ins_headerInfo i) (ins_footerInfo i)
             (ins_previousVersionId i) in
  (d, set_documents (documents st ++ [d]) st).

(** Modelled from the spec: [storage.updateDocument], the store's
    [update(id, partialFields)], a merge of the supplied fields only
    into the row with that id; the updated row is returned, or nothing
    when no row has the id. *)
Definition updateDocument (st : Store) (did : string) (p : DocPatch)
  : option Doc.t * Store :=
  let upd := map (fun d => if Doc.id d =? did then applyPatch p d else d)
                 (documents st) in
  (find (fun d => Doc.id d =? did) upd, set_documents upd st).

(** Modelled from the spec: [storage.assignDocumentToDepartments], the
    side relation between a document and department ids. *)
Definition assignDocumentToDepartments (st : Store) (did : string)
    (depts : list string) : Store :=
  set_documentDepartments
    (documentDepartments st ++ map (fun dep => (did, dep)) depts) st.

(** Modelled from the spec: [storage.createNotification], the store's
    [create(entity)] on Notification rows: unread, stamped with the
    creation time. *)
Definition createNotification (st : Store) (newId : string) (now : Time)
    (userId documentId message type : string) : Notification.t * Store :=
  let n := Notification.mk newId userId documentId message type false now in
  (n, set_notifications (notifications st ++ [n]) st).

(** Modelled from the spec: the number of control copies already issued
    for a document. *)
Definition issuedCount (st : Store) (did : string) : nat :=
  length (filter (fun c => ControlCopy.documentId c =? did)
                 (controlCopies st)).

(** Modelled from the spec: [storage.createControlCopy], the ledger's
    [issue(documentId, userId, actionType)].  The read, increment and
    persist of the per-document counter is one serialized step: the new
    row takes the count already issued for the document plus one. *)
Definition createControlCopy (st : Store) (newId : string) (now : Time)
    (documentId userId : string) (a : ActionType) : ControlCopy.t * Store :=
  let c := ControlCopy.mk newId documentId userId a
             (S (issuedCount st documentId)) now in
  (c, set_controlCopies (controlCopies st ++ [c]) st).

(** Modelled from the spec: [storage.createPrintLog], the store's
    [create(entity)] on PrintLog rows. *)
Definition createPrintLog (st : Store) (newId : string) (now : Time)
    (documentId userId controlCopyId medium : string) : PrintLog.t * Store :=
  let l := PrintLog.mk newId documentId userId controlCopyId medium now in
  (l, set_printLogs (printLogs st ++ [l]) st).

End Storage.

(** ** Requests, responses and the handler monad *)

(** The answer of a call that may throw. *)
Inductive outcome (A : Type) : Type :=
| Ok (a : A)
| Throws (msg : string).
Arguments Ok {A} a.
Arguments Throws {A} msg.

(** [ControlCopyInfo] of [server/services/pdf-service.ts]. *)
Record ControlCopyInfo : Type := mkControlCopyInfo {
  cci_userId : string;
  cci_userFullName : string;
  cci_controlCopyNumber : nat;
  cci_date : string
}.

(** What a request cannot decide by itself: the clock, the identifiers the
    store draws, and the answers of the file system and of the rendering
    pipeline ([pdfService], mammoth and puppeteer behind it). *)
Record Env : Type := mkEnv {
  clock : nat -> Time;
  uuid : nat -> string;
  toLocaleDateString : Time -> string;
  extractHeaderFooterFromWord : string -> string * string;
  saveUploadedFile : string -> string -> string -> outcome string;
  convertWordToPDF : string -> Doc.t -> ControlCopyInfo -> outcome string;
  readFile : string -> outcome string
}.

(** The calls a distribution request makes to the ledger, the audit log,
    the rendering pipeline and the file system, in the order made. *)
Inductive Effect : Type :=
| CommitControlCopy (c : ControlCopy.t)
| CommitPrintLog (l : PrintLog.t)
| Render (wordFilePath : string) (d : Doc.t) (info : ControlCopyInfo)
| ReadFile (path : string).

(** The state a handler threads: the store, the number of identifiers
    and clock readings drawn so far, the calls made. *)
Record Run : Type := mkRun {
  store : Store;
  drawn : nat;
  trace : list Effect
}.

(** What is sent back: [{ message }], the message that a requested
    version is not found (which interpolates the number), a document, an
    array of documents (an [undefined] entry is written [null]), or the
    PDF bytes. *)
Inductive Body : Type :=
| Message (m : string)
| VersionNotFound (requestedVersion : Js.num)
| DocumentJson (d : option Doc.t)
| DocumentList (l : list (option Doc.t))
| PdfBytes (b : string).

Record Response : Type := mkResponse {
  code : nat;
  body : Body
}.

(** A step of a handler goes on with a value, has sent the response, or
    has thrown. *)
Inductive result (A : Type) : Type :=
| Ret (a : A)
| Sent (r : Response)
| Thrown (msg : string).
Arguments Ret {A} a.
Arguments Sent {A} r.
Arguments Thrown {A} msg.

Definition M (A : Type) : Type := Env -> Run -> result A * Run.

Definition ret {A : Type} (a : A) : M A := fun _ s => (Ret a, s).

Definition bind {A B : Type} (m : M A) (k : A -> M B) : M B :=
  fun e s =>
    match m e s with
    | (Ret a, s') => k a e s'
    | (Sent r, s') => (Sent r, s')
    | (Thrown msg, s') => (Thrown msg, s')
    end.

Declare Scope handler_scope.
Delimit Scope handler_scope with handler.
Notation "x <- c ;; k" := (bind c (fun x => k))
  (at level 61, c at next level, right associativity) : handler_scope.
Notation "c ;;; k" := (bind c (fun _ => k))
  (at level 61, right associativity) : handler_scope.
Local Open Scope handler_scope.

(** [return res.status(code).json(body)]: the handler is over. *)
Definition reply {A : Type} (c : nat) (b : Body) : M A :=
  fun _ s => (Sent (mkResponse c b), s).

Definition throw {A : Type} (msg : string) : M A :=
  fun _ s => (Thrown msg, s).

Definition ask : M Env := fun e s => (Ret e, s).

Definition getStore : M Store := fun _ s => (Ret (store s), s).

Definition draw : M nat :=
  fun _ s => (Ret (drawn s), mkRun (store s) (S (drawn s)) (trace s)).

Definition emit (ev : Effect) : M unit :=
  fun _ s => (Ret tt, mkRun (store s) (drawn s) (trace s ++ [ev])).

(** A store call that returns a value and the store it leaves. *)
Definition onStore {A : Type} (f : Store -> A * Store) : M A :=
  fun _ s => let r := f (store s) in
             (Ret (fst r), mkRun (snd r) (drawn s) (trace s)).

Definition external {A : Type} (o : outcome A) : M A :=
  match o with
  | Ok a => ret a
  | Throws msg => throw msg
  end.

(** [new Date()]. *)
Definition newDate : M Time :=
  e <- ask ;; k <- draw ;; ret (clock e k).

Definition freshId : M string :=
  e <- ask ;; k <- draw ;; ret (uuid e k).

Fixpoint forEach {A : Type} (l : list A) (f : A -> M unit) : M unit :=
  match l with
  | [] => ret tt
  | x :: rest => f x ;;; forEach rest f
  end.

(** The [try { ... } catch (error) { res.status(500).json(...) }] every
    handler is wrapped in. *)
Definition handler (m : M Response) (e : Env) (st : Store) : Response * Run :=
  match m e (mkRun st 0 []) with
  | (Ret r, s) => (r, s)
  | (Sent r, s) => (r, s)
  | (Thrown msg, s) => (mkResponse 500 (Message msg), s)
  end.

(** The store calls as the handlers see them.  The identifier and the
    creation time of a new row are drawn by the store. *)
Module Calls.

Definition getUser (uid : string) : M (option User.t) :=
  st <- getStore ;; ret (Storage.getUser st uid).

Definition getUsersByRole (r : Role) : M (list User.t) :=
  st <- getStore ;; ret (Storage.getUsersByRole st r).

Definition getDocument (did : string) : M (option Doc.t) :=
  st <- getStore ;; ret (Storage.getDocument st did).

Definition getDocumentsByStatus (s : Status) : M (list Doc.t) :=
  st <- getStore ;; ret (Storage.getDocumentsByStatus st s).

Definition createDocument (i : InsertDocument) : M Doc.t :=
  newId <- freshId ;;
  onStore (fun st => Storage.createDocument st newId i).

Definition updateDocument (did : string) (p : DocPatch) : M (option Doc.t) :=
  onStore (fun st => Storage.updateDocument st did p).

Definition assignDocumentToDepartments (did : string) (depts : list string)
  : M unit :=
  onStore (fun st => (tt, Storage.assignDocumentToDepartments st did depts)).

Definition createNotification (userId documentId message type : string)
  : M unit :=
  newId <- freshId ;;
  at_ <- newDate ;;
  onStore (fun st =>
    (tt, snd (Storage.createNotification st newId at_
                userId documentId message type))).

Definition createControlCopy (documentId userId : string) (a : ActionType)
  : M ControlCopy.t :=
  newId <- freshId ;;
  at_ <- newDate ;;
  c <- onStore (fun st =>
         Storage.createControlCopy st newId at_ documentId userId a) ;;
  emit (CommitControlCopy c) ;;;
  ret c.

Definition createPrintLog (documentId userId controlCopyId medium : string)
  : M PrintLog.t :=
  newId <- freshId ;;
  at_ <- newDate ;;
  l <- onStore (fun st =>
         Storage.createPrintLog st newId at_ documentId userId
           controlCopyId medium) ;;
  emit (CommitPrintLog l) ;;;
  ret l.

End Calls.

(** ** The handlers of [server/routes.ts] *)

(** An integer below 10^21 interpolated in a template literal: its
    decimal numeral. *)
Definition showNum (n : Js.num) : string :=
  match n with
  | Js.Num z => DecimalString.NilZero.string_of_int (Z.to_int z)
  | Js.NaN => "NaN"
  | Js.PosInfinity => "Infinity"
  | Js.NegInfinity => "-Infinity"
  end.

(** [allVersions.reduce((latest, current) =>
      current.revisionNo > latest.revisionNo ? current : latest, first)]. *)
Definition reduceLatest (l : list Doc.t) (first : Doc.t) : Doc.t :=
  fold_left
    (fun latest current =>
       if Js.gt (Doc.revisionNo current) (Doc.revisionNo latest)
       then current else latest)
    l first.

(** The same fold started from [l[0]]: over the empty list the callback
    never runs and the result is the initial value, [undefined]. *)
Definition latestVersion (l : list Doc.t) : option Doc.t :=
  match l with
  | [] => None
  | first :: _ => Some (reduceLatest l first)
  end.

(** [req.file], the upload as multer hands it over. *)
Record Upload : Type := mkUpload {
  mimetype : string;
  size : Z;
  originalname : string;
  buffer : string
}.

(** The upload and the form fields of [POST /api/documents] that reach
    the row. *)
Record CreateRequest : Type := mkCreateRequest {
  cr_file : option Upload;
  cr_docName : string;
  cr_docNumber : string;
  cr_revisionNo : option string;
  cr_preparedBy : string;
  cr_previousVersionId : option string
}.

(** [req.body] of the approve handler; a field that is not sent is
    [None]. *)
Record ApproveRequest : Type := mkApproveRequest {
  ap_approvalRemarks : option string;
  ap_approvedBy : option string;
  ap_approverName : option string;
  ap_departments : option (list string)
}.

(** [req.body] of the issue handler. *)
Record IssueRequest : Type := mkIssueRequest {
  is_issuedBy : option string;
  is_issuerName : option string;
  is_remarks : option string
}.

(** [revisionNo: req.body.revisionNo ? parseInt(req.body.revisionNo, 10) : 0]. *)
Definition requestedRevision (req : CreateRequest) : Js.num :=
  if Js.truthy (cr_revisionNo req)
  then Js.parseInt (Js.show (cr_revisionNo req))
  else Js.Num 0.

Module Routes.

Definition allowedMimeTypes : list string :=
  [ "application/vnd.openxmlformats-officedocument.wordprocessingml.document";
    "application/msword" ].

Definition maxSize : Z := 10 * 1024 * 1024.

(** [{ wordFilePath: filePath }]. *)
Definition wordFilePathPatch (filePath : string) : DocPatch :=
  {| p_status := None; p_approvedBy := None; p_issuedBy := None;
     p_approvalRemarks := None; p_declineRemarks := None;
     p_issueRemarks := None; p_issuerName := None;
     p_approvedAt := None; p_issuedAt := None;
     p_wordFilePath := Some (Some filePath) |}.

(** [{ status: "approved", approvalRemarks, approvedBy,
       approvedAt: new Date() }]. *)
Definition approvePatch (approvalRemarks approvedBy : option string)
    (approvedAt : Time) : DocPatch :=
  {| p_status := Some Approved; p_approvedBy := Some approvedBy;
     p_issuedBy := None;
     p_approvalRemarks := Some approvalRemarks; p_declineRemarks := None;
     p_issueRemarks := None; p_issuerName := None;
     p_approvedAt := Some (Some approvedAt); p_issuedAt := None;
     p_wordFilePath := None |}.

(** [{ status: "declined", declineRemarks, approvedBy: null,
       issuedBy: null }]. *)
Definition declinePatch (declineRemarks : option string) : DocPatch :=
  {| p_status := Some Declined; p_approvedBy := Some None;
     p_issuedBy := Some None;
     p_approvalRemarks := None; p_declineRemarks := Some declineRemarks;
     p_issueRemarks := None; p_issuerName := None;
     p_approvedAt := None; p_issuedAt := None;
     p_wordFilePath := None |}.

(** [{ status: "issued", issuedBy, issuerName, issueRemarks: remarks,
       issuedAt: new Date() }]. *)
Definition issuePatch (issuedBy issuerName remarks : option string)
    (issuedAt : Time) : DocPatch :=
  {| p_status := Some Issued; p_approvedBy := None;
     p_issuedBy := Some issuedBy;
     p_approvalRemarks := None; p_declineRemarks := None;
     p_issueRemarks := Some remarks; p_issuerName := Some issuerName;
     p_approvedAt := None; p_issuedAt := Some (Some issuedAt);
     p_wordFilePath := None |}.

(** The texts of the notifications. *)
Definition titled (document : Doc.t) : string :=
  Js.dq ++ Doc.docName document ++ Js.dq
  ++ " (" ++ Doc.docNumber document ++ ")".

Definition newDocumentMessage (document : Doc.t) : string :=
  "New document " ++ titled document ++ " is ready for your approval".

Definition approvedMessage (document : Doc.t) (finalApproverName : string)
    (approvalRemarks : option string) : string :=
  "Document " ++ titled document ++ " has been approved by "
  ++ finalApproverName ++ ". Remarks: "
  ++ Js.dq ++ Js.show approvalRemarks ++ Js.dq.

Definition yourApprovedMessage (document : Doc.t)
    (finalApproverName : string) : string :=
  "Your document " ++ titled document ++ " has been approved by "
  ++ finalApproverName.

Definition declinedMessage (document : Doc.t)
    (declineRemarks : option string) : string :=
  "Your document " ++ titled document
  ++ " has been declined by issuer. Remarks: "
  ++ Js.show declineRemarks ++ ". Please review and resubmit.".

Definition yourIssuedMessage (document : Doc.t)
    (issuerName : option string) : string :=
  "Your document " ++ titled document ++ " has been issued by "
  ++ Js.show issuerName.

Definition issuedMessage (document : Doc.t) : string :=
  "Document " ++ titled document ++ " has been issued".

(** [finalApproverName = approverName || approver?.fullName || "Unknown"]. *)
Definition finalApproverName (approverName : option string)
    (approverUser : option User.t) : string :=
  Js.show
    (Js.or_else approverName
       (Js.or_else (option_map User.fullName approverUser)
          (Some "Unknown"))).

(** [POST /api/documents]. *)
Definition createDocument (req : CreateRequest) : M Response :=
  match cr_file req with
  | None => reply 400 (Message "Word document file is required")
  | Some file =>
      if negb (existsb (String.eqb (mimetype file)) allowedMimeTypes)
      then reply 400 (Message "Only Word documents (.doc, .docx) are allowed")
      else if (maxSize <? size file)%Z
      then reply 400 (Message "File size must be less than 10MB")
      else
        e <- ask ;;
        let extracted := extractHeaderFooterFromWord e (buffer file) in
        let documentData :=
          mkInsertDocument (cr_docName req) (cr_docNumber req)
            (requestedRevision req)
            (cr_preparedBy req) (cr_previousVersionId req)
            (fst extracted) (snd extracted) in
        document <- Calls.createDocument documentData ;;
        filePath <- external (saveUploadedFile e (buffer file)
                                (originalname file) (Doc.id document)) ;;
        Calls.updateDocument (Doc.id document)
          (wordFilePathPatch filePath) ;;;
        approvers <- Calls.getUsersByRole approver ;;
        forEach approvers (fun a =>
          Calls.createNotification (User.id a) (Doc.id document)
            (newDocumentMessage document) "new_document") ;;;
        reply 201
          (DocumentJson
             (Some (applyPatch (wordFilePathPatch filePath) document)))
  end.

(** [POST /api/documents/:id/approve]. *)
Definition approve (id : string) (req : ApproveRequest) : M Response :=
  found <- Calls.getDocument id ;;
  match found with
  | None => reply 404 (Message "Document not found")
  | Some document =>
      approverUser <- match ap_approvedBy req with
                      | Some uid => Calls.getUser uid
                      | None => ret None
                      end ;;
      let finalApproverName :=
        finalApproverName (ap_approverName req) approverUser in
      approvedAt <- newDate ;;
      updatedDoc <- Calls.updateDocument id
        (approvePatch (ap_approvalRemarks req) (ap_approvedBy req)
           approvedAt) ;;
      match ap_departments req with
      | Some (dep :: deps) =>
          Calls.assignDocumentToDepartments id (dep :: deps)
      | _ => ret tt
      end ;;;
      issuers <- Calls.getUsersByRole issuer ;;
      forEach issuers (fun i =>
        Calls.createNotification (User.id i) id
          (approvedMessage document finalApproverName
             (ap_approvalRemarks req))
          "approved_document") ;;;
      Calls.createNotification (Doc.preparedBy document) id
        (yourApprovedMessage document finalApproverName)
        "document_status_update" ;;;
      reply 200 (DocumentJson updatedDoc)
  end.

(** [POST /api/documents/:id/decline]. *)
Definition decline (id : string) (declineRemarks : option string)
  : M Response :=
  found <- Calls.getDocument id ;;
  match found with
  | None => reply 404 (Message "Document not found")
  | Some document =>
      updatedDoc <- Calls.updateDocument id
        (declinePatch declineRemarks) ;;
      Calls.createNotification (Doc.preparedBy document) id
        (declinedMessage document declineRemarks)
        "document_declined" ;;;
      reply 200 (DocumentJson updatedDoc)
  end.

(** [POST /api/documents/:id/issue]. *)
Definition issue (id : string) (req : IssueRequest) : M Response :=
  found <- Calls.getDocument id ;;
  match found with
  | None => reply 404 (Message "Document not found")
  | Some document =>
      issuedAt <- newDate ;;
      updatedDoc <- Calls.updateDocument id
        (issuePatch (is_issuedBy req) (is_issuerName req) (is_remarks req)
           issuedAt) ;;
      Calls.createNotification (Doc.preparedBy document) id
        (yourIssuedMessage document (is_issuerName req))
        "document_issued" ;;;
      (if Js.truthy (Doc.approvedBy document)
       then Calls.createNotification (Js.show (Doc.approvedBy document)) id
              (issuedMessage document) "document_issued"
       else ret tt) ;;;
      reply 200 (DocumentJson updatedDoc)
  end.

End Routes.

Module Distribution.

(** The version access policy shared by the PDF and the print handler:
    which row is served for the document addressed by the route, or the
    response that ends the request.  [specific] and [latestOnly] are the
    two access-denied messages, which differ between the handlers. *)
Definition resolveVersion (specific latestOnly : string)
    (user : User.t) (document : Doc.t) (version : option string)
    (allVersions : list Doc.t) (latest : Doc.t) : M Doc.t :=
  match version with
  | Some v =>
      let requestedVersion := Js.parseInt v in
      if Js.isNaN requestedVersion
      then reply 400 (Message "Invalid version parameter")
      else if negb (User.masterCopyAccess user)
      then reply 403 (Message specific)
      else
        match find (fun d => Js.strict_eq (Doc.revisionNo d) requestedVersion)
                   allVersions with
        | None =>
            reply 404 (VersionNotFound requestedVersion)
        | Some requestedDoc =>
            again <- Calls.getDocument (Doc.id requestedDoc) ;;
            ret (match again with Some d => d | None => requestedDoc end)
        end
  | None =>
      if negb (User.masterCopyAccess user)
         && negb (Doc.id document =? Doc.id latest)
      then reply 403 (Message latestOnly)
      else ret document
  end.

(** [{ userId: user.id, userFullName: user.fullName,
       controlCopyNumber: controlCopy.copyNumber,
       date: new Date().toLocaleDateString() }]. *)
Definition controlCopyInfo (e : Env) (user : User.t) (c : ControlCopy.t)
    (at_ : Time) : ControlCopyInfo :=
  mkControlCopyInfo (User.id user) (User.fullName user)
    (ControlCopy.copyNumber c) (toLocaleDateString e at_).

(** [pdfService.convertWordToPDF] followed by [fs.readFile(pdfPath)]. *)
Definition renderAndRead (wordFilePath : string) (document : Doc.t)
    (info : ControlCopyInfo) : M string :=
  e <- ask ;;
  emit (Render wordFilePath document info) ;;;
  pdfPath <- external (convertWordToPDF e wordFilePath document info) ;;
  emit (ReadFile pdfPath) ;;;
  external (readFile e pdfPath).

(** The rest of the PDF handler once the row to serve is known: the
    status and file checks, the control copy, the rendering. *)
Definition servePdf (user : User.t) (userId : option string)
    (document : Doc.t) : M Response :=
  if negb (Status_eqb (Doc.status document) Issued)
  then reply 403 (Message "Only issued documents can be viewed as PDF")
  else if negb (Js.truthy (Doc.wordFilePath document))
  then reply 404 (Message "No Word file uploaded for this document")
  else
    controlCopy <- Calls.createControlCopy (Doc.id document)
                     (Js.show userId) view ;;
    e <- ask ;;
    at_ <- newDate ;;
    let info := controlCopyInfo e user controlCopy at_ in
    pdfBuffer <- renderAndRead (Js.show (Doc.wordFilePath document))
                   document info ;;
    reply 200 (PdfBytes pdfBuffer).

(** The rest of the print handler once the row to serve is known. *)
Definition servePrint (user : User.t) (userId : option string)
    (document : Doc.t) : M Response :=
  if negb (Status_eqb (Doc.status document) Issued)
  then reply 403 (Message "Only issued documents can be printed")
  else if negb (Js.truthy (Doc.wordFilePath document))
  then reply 404 (Message "No Word file uploaded for this document")
  else
    controlCopy <- Calls.createControlCopy (Doc.id document)
                     (Js.show userId) print ;;
    printLog <- Calls.createPrintLog (Doc.id document) (Js.show userId)
                  (ControlCopy.id controlCopy) "PDF" ;;
    e <- ask ;;
    at_ <- newDate ;;
    let info := controlCopyInfo e user controlCopy at_ in
    pdfBuffer <- renderAndRead (Js.show (Doc.wordFilePath document))
                   document info ;;
    reply 200 (PdfBytes pdfBuffer).

(** [GET /api/documents/:id/pdf]. *)
Definition pdf (id : string) (userId version : option string) : M Response :=
  if negb (Js.truthy userId)
  then reply 400 (Message "userId query parameter is required")
  else
    foundUser <- Calls.getUser (Js.show userId) ;;
    match foundUser with
    | None => reply 404 (Message "User not found")
    | Some user =>
        found <- Calls.getDocument id ;;
        match found with
        | None => reply 404 (Message "Document not found")
        | Some document =>
            let originalDocNumber := Doc.docNumber document in
            allIssuedDocs <- Calls.getDocumentsByStatus Issued ;;
            let allVersions :=
              filter (fun d => Doc.docNumber d =? originalDocNumber)
                     allIssuedDocs in
            match allVersions with
            | [] => reply 404
                      (Message "No issued versions found for this document")
            | first :: _ =>
                let latest := reduceLatest allVersions first in
                document <- resolveVersion
                  "Access denied. Only master copy users can access specific versions."
                  "Access denied. Only the latest version can be accessed. Please contact administrator for previous versions."
                  user document version allVersions latest ;;
                servePdf user userId document
            end
        end
    end.

(** [POST /api/documents/:id/print].  [version] is the text [parseInt]
    reads off the body's [version] field when the field is defined. *)
Definition print (id : string) (userId version : option string)
  : M Response :=
  if negb (Js.truthy userId)
  then reply 400 (Message "userId is required")
  else
    foundUser <- Calls.getUser (Js.show userId) ;;
    match foundUser with
    | None => reply 404 (Message "User not found")
    | Some user =>
        found <- Calls.getDocument id ;;
        match found with
        | None => reply 404 (Message "Document not found")
        | Some document =>
            let originalDocNumber := Doc.docNumber document in
            allIssuedDocs <- Calls.getDocumentsByStatus Issued ;;
            let allVersions :=
              filter (fun d => Doc.docNumber d =? originalDocNumber)
                     allIssuedDocs in
            match allVersions with
            | [] => reply 404
                      (Message "No issued versions found for this document")
            | first :: _ =>
                let latest := reduceLatest allVersions first in
                document <- resolveVersion
                  "Access denied. Only master copy users can print specific versions."
                  "Access denied. Only the latest version can be printed. Please contact administrator for previous versions."
                  user document version allVersions latest ;;
                servePrint user userId document
            end
        end
    end.

(** [GET /api/documents/:docNumber/versions].  An [undefined] entry of
    the array is written as [null] by [res.json]. *)
Definition versions (docNumber : string) (userId : option string)
  : M Response :=
  if negb (Js.truthy userId)
  then reply 400 (Message "userId query parameter is required")
  else
    foundUser <- Calls.getUser (Js.show userId) ;;
    match foundUser with
    | None => reply 404 (Message "User not found")
    | Some user =>
        allDocuments <- Calls.getDocumentsByStatus Issued ;;
        let documentVersions :=
          filter (fun d => Doc.docNumber d =? docNumber) allDocuments in
        if User.masterCopyAccess user
        then reply 200 (DocumentList (map Some documentVersions))
        else reply 200 (DocumentList [latestVersion documentVersions])
    end.

End Distribution.

(** ** Sequences of ledger calls *)

(** One call of [storage.createControlCopy], with the identifier and the
    time the store gives the new row. *)
Record LedgerCall : Type := mkLedgerCall {
  lc_newId : string;
  lc_now : Time;
  lc_documentId : string;
  lc_userId : string;
  lc_actionType : ActionType
}.

(** The calls run one after the other, each on the store the previous one
    left; the rows returned, in call order. *)
Fixpoint issueAll (calls : list LedgerCall) (st : Store)
  : list ControlCopy.t * Store :=
  match calls with
  | [] => ([], st)
  | c :: rest =>
      let (row, st1) :=
        Storage.createControlCopy st (lc_newId c) (lc_now c)
          (lc_documentId c) (lc_userId c) (lc_actionType c) in
      let (rows, st2) := issueAll rest st1 in
      (row :: rows, st2)
  end.

Definition callsFor (d : string) (calls : list LedgerCall) : list LedgerCall :=
  filter (fun c => lc_documentId c =? d) calls.

Definition copiesFor (d : string) (rows : list ControlCopy.t)
  : list ControlCopy.t :=
  filter (fun c => ControlCopy.documentId c =? d) rows.

(** ** Vocabulary of the statements *)

(** The notifications a handler run added to the store. *)
Definition added (before after : Store) : list Notification.t :=
  skipn (length (notifications before)) (notifications after).

(** The store after the optional department assignment of an approval. *)
Definition afterDepartments (st : Store) (id : string)
    (departments : option (list string)) : Store :=
  match departments with
  | Some (dep :: deps) => Storage.assignDocumentToDepartments st id (dep :: deps)
  | _ => st
  end.

(** The (docNumber, revisionNo) pairs of the Document rows, in listing
    order. *)
Definition revisionKeys (st : Store) : list (string * Js.num) :=
  map (fun d => (Doc.docNumber d, Doc.revisionNo d)) (documents st).

(** For a fixed docNumber, the revisionNo values are pairwise distinct. *)
Definition distinctRevisions (st : Store) : Prop := NoDup (revisionKeys st).

(** The upload checks of the creation handler: a file is attached, of an
    allowed type, within the size limit. *)
Definition validUpload (req : CreateRequest) : bool :=
  match cr_file req with
  | Some file =>
      existsb (String.eqb (mimetype file)) Routes.allowedMimeTypes
      && negb (Routes.maxSize <? size file)%Z
  | None => false
  end.

(** The row [storage.createDocument] is asked to store for a creation
    request with the given upload. *)
Definition createdRow (e : Env) (req : CreateRequest) (file : Upload) : Doc.t :=
  Doc.mk (uuid e 0) (cr_docName req) (cr_docNumber req) (requestedRevision req)
    Pending (cr_preparedBy req) None None None None None None None None None
    (fst (extractHeaderFooterFromWord e (buffer file)))
    (snd (extractHeaderFooterFromWord e (buffer file)))
    (cr_previousVersionId req).

(** The users a handler run addressed notifications to, in order. *)
Definition targets (before : Store) (out : Response * Run) : list string :=
  map Notification.userId (added before (store (snd out))).

(** The issued rows of a document number, in listing order: the
    [allVersions] of the handlers. *)
Definition revisionSet (st : Store) (docNumber : string) : list Doc.t :=
  filter (fun d => Doc.docNumber d =? docNumber)
         (Storage.getDocumentsByStatus st Issued).

(** The ControlCopy row a distribution request commits for the row it
    serves: the first identifier and the second clock reading of the
    request, the next copy number of the document. *)
Definition issuedCopy (e : Env) (st : Store) (userId : option string)
    (a : ActionType) (d : Doc.t) : ControlCopy.t :=
  ControlCopy.mk (uuid e 0) (Doc.id d) (Js.show userId) a
    (S (Storage.issuedCount st (Doc.id d))) (clock e 1).

(** The PrintLog row a print request commits after its control copy. *)
Definition printLogOf (e : Env) (c : ControlCopy.t) : PrintLog.t :=
  PrintLog.mk (uuid e 2) (ControlCopy.documentId c) (ControlCopy.userId c)
    (ControlCopy.id c) "PDF" (clock e 3).

(** The row a PDF or print request is let through to, with the user it
    is served to: the checks both handlers make before they reach the
    ledger (lines 480 to 536 and 572 to 628 of [server/routes.ts]), as a
    function of the store.  [None] when one of the checks ends the
    request. *)
Definition admittedRow (st : Store) (id : string)
    (userId version : option string) : option (User.t * Doc.t) :=
  if negb (Js.truthy userId) then None
  else
    match Storage.getUser st (Js.show userId) with
    | None => None
    | Some user =>
        match Storage.getDocument st id with
        | None => None
        | Some document =>
            match revisionSet st (Doc.docNumber document) with
            | [] => None
            | first :: rest =>
                let allVersions := first :: rest in
                let latest := reduceLatest allVersions first in
                let chosen :=
                  match version with
                  | Some v =>
                      let requestedVersion := Js.parseInt v in
                      if Js.isNaN requestedVersion then None
                      else if negb (User.masterCopyAccess user) then None
                      else
                        match find (fun d => Js.strict_eq (Doc.revisionNo d)
                                               requestedVersion)
                                   allVersions with
                        | None => None
                        | Some requestedDoc =>
                            match Storage.getDocument st (Doc.id requestedDoc)
                            with
                            | Some d => Some d
                            | None => Some requestedDoc
                            end
                        end
                  | None =>
                      if negb (User.masterCopyAccess user)
                         && negb (Doc.id document =? Doc.id latest)
                      then None
                      else Some document
                  end in
                match chosen with
                | None => None
                | Some d =>
                    if Status_eqb (Doc.status d) Issued
                       && Js.truthy (Doc.wordFilePath d)
                    then Some (user, d)
                    else None
                end
            end
        end
    end.

(** A request that ended before the ledger: it is answered 400, 403 or
    404, has called neither the ledger, the audit log nor the rendering
    pipeline, and has left the store as it was. *)
Definition refusedBeforeLedger (st : Store) (out : Response * Run) : Prop :=
  (code (fst out) = 400 \/ code (fst out) = 403 \/ code (fst out) = 404)
  /\ trace (snd out) = []
  /\ store (snd out) = st.

(** ** Sample data *)

Module Sample.

Local Open Scope string_scope.

Definition decimal (k : nat) : string := showNum (Js.Num (Z.of_nat k)).

(** An environment in which the file system and the rendering pipeline
    answer. *)
Definition env : Env :=
  mkEnv (fun k => Z.of_nat (1000 + k))
        (fun k => "row-" ++ decimal k)
        (fun _ => "11/5/2025")
        (fun _ => ("Document Header", "Standard Footer"))
        (fun _ name did => Ok ("uploads/" ++ did ++ "_" ++ name))
        (fun _ d info =>
           Ok ("pdfs/" ++ Doc.docNumber d ++ "_cc"
               ++ decimal (cci_controlCopyNumber info) ++ ".pdf"))
        (fun _ => Ok "%PDF-1.7").

(** The same environment with a rendering pipeline that fails. *)
Definition envRenderFails : Env :=
  mkEnv (clock env) (uuid env) (toLocaleDateString env)
        (extractHeaderFooterFromWord env) (saveUploadedFile env)
        (fun _ _ _ => Throws "Chromium not found in PATH")
        (readFile env).

Definition creatorUser : User.t :=
  User.mk "u-creator" "creator@example.com" creator "Casey Creator" false.
Definition approverUser : User.t :=
  User.mk "u-approver" "approver@example.com" approver "Alex Approver" false.
Definition issuerUser : User.t :=
  User.mk "u-issuer" "issuer@example.com" issuer "Ira Issuer" false.
Definition masterUser : User.t :=
  User.mk "u-master" "admin@example.com" admin "Morgan Master" true.

Definition allUsers : list User.t :=
  [creatorUser; approverUser; issuerUser; masterUser].

Definition row (id docNumber : string) (revisionNo : Z) (s : Status)
    (approvedBy : option string) : Doc.t :=
  Doc.mk id "Quality Manual" docNumber (Js.Num revisionNo) s "u-creator"
    approvedBy None None None None None None None
    (Some ("uploads/" ++ id ++ ".docx")) "Document Header" "Standard Footer"
    None.

(** QA-001 has the issued revisions 0 and 1. *)
Definition qa0 : Doc.t := row "d0" "QA-001" 0 Issued (Some "u-approver").
Definition qa1 : Doc.t := row "d1" "QA-001" 1 Issued (Some "u-approver").
(** A second issued row of QA-001 that also carries revision 1. *)
Definition qa1again : Doc.t := row "d2" "QA-001" 1 Issued (Some "u-approver").
Definition pendingDoc : Doc.t := row "d3" "QA-002" 0 Pending None.
Definition approvedDoc : Doc.t :=
  row "d4" "QA-003" 0 Approved (Some "u-approver").
(** A document approved by its own preparer. *)
Definition selfApprovedDoc : Doc.t :=
  row "d5" "QA-004" 0 Approved (Some "u-creator").

Definition st : Store :=
  mkStore allUsers
    [qa0; qa1; pendingDoc; approvedDoc; selfApprovedDoc] [] [] [] [].

Definition upload : Upload :=
  mkUpload "application/msword" 2048 "manual.doc" "PK...".

(** A request for a second row of QA-001 revision 1, and one for a first
    row of revision 2. *)
Definition createQa1 : CreateRequest :=
  mkCreateRequest (Some upload) "Quality Manual" "QA-001" (Some "1")
    "u-creator" None.

Definition createQa2 : CreateRequest :=
  mkCreateRequest (Some upload) "Quality Manual" "QA-001" (Some "2")
    "u-creator" (Some "d1").

End Sample.

(** * Properties *)

(** ** The JavaScript helpers on concrete inputs *)

Example parseInt_plain : Js.parseInt "12" = Js.Num 12.
Proof. reflexivity. Qed.

Example parseInt_prefix : Js.parseInt "  -12abc" = Js.Num (-12).
Proof. reflexivity. Qed.

Example parseInt_no_digit : Js.parseInt "v1" = Js.NaN.
Proof. reflexivity. Qed.

Example parseInt_empty : Js.parseInt "" = Js.NaN.
Proof. reflexivity. Qed.

Example parseInt_no_break_space :
  Js.parseInt (String (ascii_of_nat 194) (String (ascii_of_nat 160) "1"))
  = Js.Num 1.
Proof. reflexivity. Qed.

Example parseInt_byte_order_mark :
  Js.parseInt
    (String (ascii_of_nat 239)
       (String (ascii_of_nat 187) (String (ascii_of_nat 191) " 7")))
  = Js.Num 7.
Proof. reflexivity. Qed.

Example parseInt_rounds_to_even :
  Js.parseInt "9007199254740993" = Js.Num 9007199254740992
  /\ Js.parseInt "9007199254740995" = Js.Num 9007199254740996
  /\ Js.parseInt "-9007199254740993" = Js.Num (-9007199254740992).
Proof. repeat split; vm_compute; reflexivity. Qed.

Example parseInt_exact_below_two53 :
  Js.parseInt "9007199254740991" = Js.Num 9007199254740991.
Proof. vm_compute. reflexivity. Qed.

Example parseInt_twenty_two_digits :
  Js.parseInt "1234567890123456789012" = Js.Num 1234567890123456774144.
Proof. vm_compute. reflexivity. Qed.

Example parseInt_minus_zero : Js.parseInt "-0" = Js.Num 0.
Proof. reflexivity. Qed.

Example ofInteger_overflow :
  Js.ofInteger false (2 ^ 1024 - 2 ^ 970) = Js.PosInfinity
  /\ Js.ofInteger false (2 ^ 1024 - 2 ^ 970 - 1)
     = Js.Num ((2 ^ 53 - 1) * 2 ^ 971)
  /\ Js.ofInteger true (10 ^ 309) = Js.NegInfinity.
Proof. repeat split; vm_compute; reflexivity. Qed.

Example gt_infinities :
  Js.gt Js.PosInfinity (Js.Num 7) = true
  /\ Js.gt (Js.Num 7) Js.NegInfinity = true
  /\ Js.gt Js.PosInfinity Js.PosInfinity = false
  /\ Js.gt Js.PosInfinity Js.NaN = false.
Proof. repeat split; reflexivity. Qed.

Example gt_NaN : Js.gt (Js.Num 1) Js.NaN = false /\ Js.gt Js.NaN (Js.Num 1) = false.
Proof. split; reflexivity. Qed.

Example latestVersion_of_none : latestVersion [] = None.
Proof. reflexivity. Qed.

Example latestVersion_of_qa :
  latestVersion [Sample.qa0; Sample.qa1] = Some Sample.qa1
  /\ latestVersion [Sample.qa1; Sample.qa0] = Some Sample.qa1.
Proof. split; reflexivity. Qed.

(** ** The latest-version fold *)

Section LatestVersion.

Let rev := Doc.revisionNo.

Lemma reduceLatest_cons d l acc :
  reduceLatest (d :: l) acc =
  reduceLatest l (if Js.gt (rev d) (rev acc) then d else acc).
Proof. reflexivity. Qed.

(** Nothing after the accumulator beats it: the accumulator stays. *)
Lemma reduceLatest_keeps l : forall acc,
  (forall d, In d l -> Js.gt (rev d) (rev acc) = false) ->
  reduceLatest l acc = acc.
Proof.
  induction l as [|d l IH]; intros acc Hle; [reflexivity|].
  rewrite reduceLatest_cons, (Hle d (or_introl eq_refl)).
  apply IH. intros d' Hd'. apply Hle. now right.
Qed.

(** While the rows met are strictly below [r], the accumulator is either
    [r] itself or one of those rows; [r] then takes over for good. *)
Lemma reduceLatest_reaches l1 r l2 n :
  rev r = Js.Num n ->
  (forall d, In d l2 -> Js.gt (rev d) (Js.Num n) = false) ->
  (forall d, In d l1 -> exists m, rev d = Js.Num m /\ (m < n)%Z) ->
  forall acc,
    acc = r \/ (exists m, rev acc = Js.Num m /\ (m < n)%Z) ->
    reduceLatest (l1 ++ r :: l2) acc = r.
Proof.
  intros Hr Hafter.
  induction l1 as [|d l1 IH]; intros Hbefore acc Hacc.
  - cbn [app]. rewrite reduceLatest_cons.
    assert (Hstep : (if Js.gt (rev r) (rev acc) then r else acc) = r).
    { destruct Hacc as [-> | (m & Hm & Hlt)].
      - now destruct (Js.gt (rev r) (rev r)).
      - rewrite Hr, Hm. cbn. now apply Z.ltb_lt in Hlt as ->. }
    rewrite Hstep. apply reduceLatest_keeps.
    intros d Hd. rewrite Hr. now apply Hafter.
  - cbn [app]. rewrite reduceLatest_cons. apply IH.
    + intros d' Hd'. apply Hbefore. now right.
    + destruct (Js.gt (rev d) (rev acc)); [|exact Hacc].
      right. apply Hbefore. now left.
Qed.

(** The result of the fold is the initial row or a row of the list. *)
Lemma reduceLatest_In l : forall acc, In (reduceLatest l acc) (acc :: l).
Proof.
  induction l as [|d l IH]; intros acc; [now left|].
  rewrite reduceLatest_cons. destruct (Js.gt (rev d) (rev acc)).
  - right. apply IH.
  - destruct (IH acc) as [Heq | Hin]; [left; exact Heq|].
    right. right. exact Hin.
Qed.

(** The fold answers with a row of the list as soon as there is one. *)
Lemma latestVersion_total first rest :
  exists r, latestVersion (first :: rest) = Some r /\ In r (first :: rest).
Proof.
  exists (reduceLatest (first :: rest) first). split; [reflexivity|].
  destruct (reduceLatest_In (first :: rest) first) as [Heq | Hrest];
    [rewrite <- Heq; now left | exact Hrest].
Qed.

End LatestVersion.

(** C9.  The latest-version fold of the PDF, print and version-list
    handlers returns a row for every non-empty revision set, and when
    several rows carry the greatest revisionNo it returns the one that
    comes first in listing order: a row [r] preceded only by rows of
    strictly smaller revisionNo and followed by rows that are not greater
    (equal ones included) is the result. *)
Theorem latestVersion_first_of_the_greatest :
  forall (l1 l2 : list Doc.t) (r : Doc.t) (n : Z),
    Doc.revisionNo r = Js.Num n ->
    (forall d, In d l1 ->
       exists m, Doc.revisionNo d = Js.Num m /\ (m < n)%Z) ->
    (forall d, In d l2 -> Js.gt (Doc.revisionNo d) (Js.Num n) = false) ->
    latestVersion (l1 ++ r :: l2) = Some r.
Proof.
  intros l1 l2 r n Hr Hbefore Hafter.
  destruct l1 as [|first l1]; cbn [app latestVersion].
  - f_equal. apply (reduceLatest_reaches [] r l2 n Hr Hafter).
    + intros d [].
    + now left.
  - f_equal.
    apply (reduceLatest_reaches (first :: l1) r l2 n Hr Hafter Hbefore).
    right. apply Hbefore. now left.
Qed.

Lemma latestVersion_first_of_the_greatest_witness :
  latestVersion [Sample.qa0; Sample.qa1; Sample.qa1again] = Some Sample.qa1.
Proof.
  apply (latestVersion_first_of_the_greatest
           [Sample.qa0] [Sample.qa1again] Sample.qa1 1).
  - reflexivity.
  - intros d [<- | []]. exists 0%Z. split; [reflexivity | lia].
  - intros d [<- | []]. reflexivity.
Defined.

(** ** The control copy ledger *)

Lemma issuedCount_after_create st newId now d u a d' :
  Storage.issuedCount
    (snd (Storage.createControlCopy st newId now d u a)) d' =
  if d =? d' then S (Storage.issuedCount st d') else Storage.issuedCount st d'.
Proof.
  unfold Storage.issuedCount, Storage.createControlCopy; cbn.
  rewrite filter_app, length_app; cbn.
  destruct (d =? d'); cbn; lia.
Qed.

Lemma issueAll_appends calls : forall st,
  controlCopies (snd (issueAll calls st))
  = controlCopies st ++ fst (issueAll calls st).
Proof.
  induction calls as [|c calls IH]; intros st.
  - cbn. now rewrite app_nil_r.
  - cbn [issueAll].
    destruct (Storage.createControlCopy st (lc_newId c) (lc_now c)
                (lc_documentId c) (lc_userId c) (lc_actionType c))
      as [row st1] eqn:Hcall.
    specialize (IH st1). destruct (issueAll calls st1) as [rows st2].
    cbn [fst snd] in *. rewrite IH.
    unfold Storage.createControlCopy in Hcall. injection Hcall as <- <-.
    cbn. now rewrite <- app_assoc.
Qed.

Lemma issueAll_numbers calls : forall st d,
  map ControlCopy.copyNumber (copiesFor d (fst (issueAll calls st))) =
  seq (S (Storage.issuedCount st d)) (length (callsFor d calls)).
Proof.
  induction calls as [|c calls IH]; intros st d; [reflexivity|].
  cbn [issueAll callsFor filter].
  pose proof (issuedCount_after_create st (lc_newId c) (lc_now c)
                (lc_documentId c) (lc_userId c) (lc_actionType c) d) as Hk.
  destruct (Storage.createControlCopy st (lc_newId c) (lc_now c)
              (lc_documentId c) (lc_userId c) (lc_actionType c))
    as [row st1] eqn:Hcall.
  assert (Hrow : ControlCopy.documentId row = lc_documentId c
                 /\ ControlCopy.copyNumber row
                    = S (Storage.issuedCount st (lc_documentId c))).
  { unfold Storage.createControlCopy in Hcall. injection Hcall as <- _.
    now split. }
  destruct Hrow as [Hdoc Hnum].
  specialize (IH st1 d). cbn [snd] in Hk.
  destruct (issueAll calls st1) as [rows st2]. cbn [fst] in *.
  unfold copiesFor in *. cbn [filter]. rewrite Hdoc.
  destruct (String.eqb_spec (lc_documentId c) d) as [Heq | Hne].
  - cbn [map length seq]. rewrite Hnum, Heq, IH, Hk. reflexivity.
  - rewrite IH, Hk. reflexivity.
Qed.

(** C1.  Whatever the store and whatever calls for other documents come
    in between, the calls of [storage.createControlCopy] for one document
    return, in call order, the copy numbers k+1, ..., k+m, where k copies
    were issued for the document before and m calls are made for it: each
    number once, none missing, strictly increasing.  The ledger rows of
    the document afterwards are the k rows it had, followed by rows that
    carry these numbers. *)
Theorem createControlCopy_numbers :
  forall (calls : list LedgerCall) (st : Store) (d : string),
    let k := Storage.issuedCount st d in
    let m := length (callsFor d calls) in
    let out := issueAll calls st in
    map ControlCopy.copyNumber (copiesFor d (fst out)) = seq (S k) m
    /\ map ControlCopy.copyNumber (copiesFor d (controlCopies (snd out)))
       = map ControlCopy.copyNumber (copiesFor d (controlCopies st))
         ++ seq (S k) m
    /\ Storage.issuedCount (snd out) d = k + m.
Proof.
  intros calls st d k m out. subst k m out.
  pose proof (issueAll_numbers calls st d) as Hnum.
  split; [exact Hnum|].
  assert (Hrows : map ControlCopy.copyNumber
                    (copiesFor d (controlCopies (snd (issueAll calls st))))
                  = map ControlCopy.copyNumber (copiesFor d (controlCopies st))
                    ++ seq (S (Storage.issuedCount st d))
                         (length (callsFor d calls))).
  { rewrite issueAll_appends. unfold copiesFor in *.
    now rewrite filter_app, map_app, Hnum. }
  split; [exact Hrows|].
  apply (f_equal (@length nat)) in Hrows.
  rewrite length_app, !length_map, length_seq in Hrows. exact Hrows.
Qed.

(** ** Store calls *)

Lemma applyPatch_id p d : Doc.id (applyPatch p d) = Doc.id d.
Proof. reflexivity. Qed.

Lemma applyPatch_docNumber p d : Doc.docNumber (applyPatch p d) = Doc.docNumber d.
Proof. reflexivity. Qed.

Lemma applyPatch_revisionNo p d :
  Doc.revisionNo (applyPatch p d) = Doc.revisionNo d.
Proof. reflexivity. Qed.

Lemma find_patched did p (l : list Doc.t) :
  find (fun d => Doc.id d =? did)
       (map (fun d => if Doc.id d =? did then applyPatch p d else d) l) =
  option_map (applyPatch p) (find (fun d => Doc.id d =? did) l).
Proof.
  induction l as [|d l IH]; [reflexivity|].
  cbn [map find]. destruct (Doc.id d =? did) eqn:Hid.
  - rewrite applyPatch_id, Hid. reflexivity.
  - rewrite Hid. exact IH.
Qed.

(** [updateDocument] on an id that resolves returns the merged row, which
    is the row the id resolves to afterwards. *)
Lemma updateDocument_found st did p d :
  Storage.getDocument st did = Some d ->
  fst (Storage.updateDocument st did p) = Some (applyPatch p d)
  /\ Storage.getDocument (snd (Storage.updateDocument st did p)) did
     = Some (applyPatch p d).
Proof.
  unfold Storage.getDocument, Storage.updateDocument. cbn. intros Hd.
  rewrite find_patched, Hd. now split.
Qed.

Lemma added_app st l st' :
  notifications st' = notifications st ++ l -> added st st' = l.
Proof.
  unfold added. intros ->. rewrite skipn_app, skipn_all, Nat.sub_diag.
  reflexivity.
Qed.

(** The loop [for (const u of l) await storage.createNotification(...)]
    appends one notification per element of [l], in order, and touches
    nothing else. *)
Lemma forEach_createNotification (e : Env) (did ty : string)
    (msg : User.t -> string) (l : list User.t) :
  forall s : Run,
  exists (ns : list Notification.t) (k : nat),
    forEach l (fun u => Calls.createNotification (User.id u) did (msg u) ty) e s
    = (Ret tt,
       mkRun (set_notifications (notifications (store s) ++ ns) (store s))
             k (trace s))
    /\ map Notification.userId ns = map User.id l.
Proof.
  induction l as [|u l IH]; intros s.
  - exists [], (drawn s). cbn. rewrite app_nil_r. destruct s as [[] ? ?].
    now split.
  - cbn [forEach]. unfold bind at 1.
    set (s1 := snd (Calls.createNotification (User.id u) did (msg u) ty e s)).
    destruct (IH s1) as (ns & k & Hrun & Hids).
    exists (Notification.mk (uuid e (drawn s)) (User.id u) did (msg u) ty false
              (clock e (S (drawn s))) :: ns), k.
    split; [|cbn; now rewrite Hids].
    change (Calls.createNotification (User.id u) did (msg u) ty e s)
      with (Ret tt, s1).
    cbv beta iota. rewrite Hrun. subst s1. cbn. rewrite <- app_assoc. reflexivity.
Qed.

(** ** Running a handler *)

Ltac run_more := cbn [store drawn trace fst snd].

Ltac run_handler :=
  unfold handler, Calls.getUser, Calls.getUsersByRole, Calls.getDocument,
    Calls.getDocumentsByStatus, Calls.createDocument, Calls.updateDocument,
    Calls.assignDocumentToDepartments, Calls.createNotification,
    Calls.createControlCopy, Calls.createPrintLog,
    freshId, newDate, onStore, getStore, ask, draw, emit, external, throw,
    bind, ret, reply;
  run_more.

Lemma notifications_after_create st newId now u did msg ty :
  notifications (snd (Storage.createNotification st newId now u did msg ty))
  = notifications st
    ++ [Notification.mk newId u did msg ty false now].
Proof. reflexivity. Qed.

Lemma getDocument_after_create st newId now u did msg ty id :
  Storage.getDocument
    (snd (Storage.createNotification st newId now u did msg ty)) id
  = Storage.getDocument st id.
Proof. reflexivity. Qed.

Lemma notifications_after_update st id p :
  notifications (snd (Storage.updateDocument st id p)) = notifications st.
Proof. reflexivity. Qed.

Ltac added_now :=
  unfold added; run_more;
  rewrite ?notifications_after_create, ?notifications_after_update,
    <- ?app_assoc;
  rewrite skipn_app, skipn_all, Nat.sub_diag;
  cbn [skipn app map Notification.userId].

(** *** decline *)

Lemma decline_run e st id remarks d :
  Storage.getDocument st id = Some d ->
  handler (Routes.decline id remarks) e st =
  (mkResponse 200
     (DocumentJson (Some (applyPatch (Routes.declinePatch remarks) d))),
   mkRun (snd (Storage.createNotification
                 (snd (Storage.updateDocument st id
                         (Routes.declinePatch remarks)))
                 (uuid e 0) (clock e 1) (Doc.preparedBy d) id
                 (Routes.declinedMessage d remarks) "document_declined"))
         2 []).
Proof.
  intros Hd. unfold Routes.decline. run_handler. rewrite Hd. run_more.
  destruct (updateDocument_found st id (Routes.declinePatch remarks) d Hd)
    as [-> _].
  reflexivity.
Qed.

Lemma decline_missing e st id remarks :
  Storage.getDocument st id = None ->
  handler (Routes.decline id remarks) e st =
  (mkResponse 404 (Message "Document not found"), mkRun st 0 []).
Proof.
  intros Hd. unfold Routes.decline. run_handler. now rewrite Hd.
Qed.

(** C6.  Declining a document that exists, whatever its status (Pending
    and Approved included), answers with the updated row, which is the
    row stored under the id from then on: its status is Declined, its
    approvedBy and issuedBy are cleared, and exactly one notification is
    added, addressed to the preparer of the document. *)
Theorem decline_clears_and_notifies_preparer :
  forall (e : Env) (st : Store) (id : string) (remarks : option string)
         (d : Doc.t),
    Storage.getDocument st id = Some d ->
    let out := handler (Routes.decline id remarks) e st in
    exists (d' : Doc.t) (n : Notification.t),
      fst out = mkResponse 200 (DocumentJson (Some d'))
      /\ Storage.getDocument (store (snd out)) id = Some d'
      /\ Doc.status d' = Declined
      /\ Doc.approvedBy d' = None
      /\ Doc.issuedBy d' = None
      /\ added st (store (snd out)) = [n]
      /\ Notification.userId n = Doc.preparedBy d
      /\ Notification.documentId n = id.
Proof.
  intros e st id remarks d Hd out. subst out.
  rewrite (decline_run e st id remarks d Hd). run_more.
  eexists. eexists. split; [reflexivity|].
  split.
  { rewrite getDocument_after_create.
    apply (updateDocument_found st id _ d Hd). }
  repeat (split; [reflexivity|]).
  split.
  { apply added_app. rewrite notifications_after_create.
    rewrite notifications_after_update. reflexivity. }
  split; reflexivity.
Qed.

Lemma decline_clears_and_notifies_preparer_witness :
  exists (d' : Doc.t) (n : Notification.t),
    fst (handler (Routes.decline "d4" (Some "Wrong template")) Sample.env
           Sample.st)
    = mkResponse 200 (DocumentJson (Some d'))
    /\ Storage.getDocument
         (store (snd (handler (Routes.decline "d4" (Some "Wrong template"))
                        Sample.env Sample.st))) "d4" = Some d'
    /\ Doc.status d' = Declined
    /\ Doc.approvedBy d' = None
    /\ Doc.issuedBy d' = None
    /\ added Sample.st
         (store (snd (handler (Routes.decline "d4" (Some "Wrong template"))
                        Sample.env Sample.st))) = [n]
    /\ Notification.userId n = Doc.preparedBy Sample.approvedDoc
    /\ Notification.documentId n = "d4".
Proof.
  apply (decline_clears_and_notifies_preparer Sample.env Sample.st "d4"
           (Some "Wrong template") Sample.approvedDoc).
  reflexivity.
Defined.

(** *** issue *)

(** The store an issue request leaves behind. *)
Lemma issue_run e st id req d :
  Storage.getDocument st id = Some d ->
  let p := Routes.issuePatch (is_issuedBy req) (is_issuerName req)
             (is_remarks req) (clock e 0) in
  let st1 := snd (Storage.updateDocument st id p) in
  let st2 := snd (Storage.createNotification st1 (uuid e 1) (clock e 2)
                    (Doc.preparedBy d) id
                    (Routes.yourIssuedMessage d (is_issuerName req))
                    "document_issued") in
  handler (Routes.issue id req) e st =
  (mkResponse 200 (DocumentJson (Some (applyPatch p d))),
   if Js.truthy (Doc.approvedBy d)
   then mkRun (snd (Storage.createNotification st2 (uuid e 3) (clock e 4)
                      (Js.show (Doc.approvedBy d)) id
                      (Routes.issuedMessage d) "document_issued")) 5 []
   else mkRun st2 3 []).
Proof.
  intros Hd p st1 st2. unfold Routes.issue. run_handler. rewrite Hd. run_more.
  destruct (updateDocument_found st id p d Hd) as [Hu _].
  fold p. rewrite Hu.
  destruct (Js.truthy (Doc.approvedBy d)); reflexivity.
Qed.

Lemma issue_missing e st id req :
  Storage.getDocument st id = None ->
  handler (Routes.issue id req) e st =
  (mkResponse 404 (Message "Document not found"), mkRun st 0 []).
Proof.
  intros Hd. unfold Routes.issue. run_handler. now rewrite Hd.
Qed.

(** *** approve *)

Lemma approve_run e st id req d :
  Storage.getDocument st id = Some d ->
  let p := Routes.approvePatch (ap_approvalRemarks req) (ap_approvedBy req)
             (clock e 0) in
  let st1 := afterDepartments (snd (Storage.updateDocument st id p)) id
               (ap_departments req) in
  exists (ns : list Notification.t) (k : nat),
    handler (Routes.approve id req) e st =
    (mkResponse 200 (DocumentJson (Some (applyPatch p d))),
     mkRun (set_notifications (notifications st ++ ns) st1) k [])
    /\ map Notification.userId ns
       = map User.id (Storage.getUsersByRole st issuer) ++ [Doc.preparedBy d].
Proof.
  intros Hd p st1.
  destruct (updateDocument_found st id p d Hd) as [Hu _].
  set (name := Routes.finalApproverName (ap_approverName req)
                 (match ap_approvedBy req with
                  | Some uid => Storage.getUser st uid
                  | None => None
                  end)).
  destruct (forEach_createNotification e id "approved_document"
              (fun _ => Routes.approvedMessage d name (ap_approvalRemarks req))
              (Storage.getUsersByRole st issuer)
              (mkRun st1 1 [])) as (ns & k & Hrun & Hids).
  exists (ns ++ [Notification.mk (uuid e k) (Doc.preparedBy d) id
                   (Routes.yourApprovedMessage d name)
                   "document_status_update" false (clock e (S k))]),
         (S (S k)).
  split; [|now rewrite map_app, Hids].
  assert (Husers : Storage.getUsersByRole st1 issuer
                   = Storage.getUsersByRole st issuer).
  { subst st1. unfold afterDepartments.
    destruct (ap_departments req) as [[|dep deps]|]; reflexivity. }
  assert (Hnotes : notifications st1 = notifications st).
  { subst st1. unfold afterDepartments.
    destruct (ap_departments req) as [[|dep deps]|]; reflexivity. }
  unfold Routes.approve. run_handler. rewrite Hd. run_more.
  subst name p st1. unfold afterDepartments in *.
  destruct (ap_approvedBy req) as [uid|];
    destruct (ap_departments req) as [[|dep deps]|];
    run_more; rewrite Hu; run_more;
    match goal with
    | |- context [forEach ?l ?f e ?s] =>
        match type of Hrun with
        | forEach ?l' ?f' e ?s' = _ =>
            change (forEach l f e s) with (forEach l' f' e s')
        end
    end;
    rewrite Hrun; run_more; cbn; rewrite <- app_assoc; reflexivity.
Qed.

Lemma approve_missing e st id req :
  Storage.getDocument st id = None ->
  handler (Routes.approve id req) e st =
  (mkResponse 404 (Message "Document not found"), mkRun st 0 []).
Proof.
  intros Hd. unfold Routes.approve. run_handler. now rewrite Hd.
Qed.

Lemma getDocument_afterDepartments st id deps id' :
  Storage.getDocument (afterDepartments st id deps) id'
  = Storage.getDocument st id'.
Proof. destruct deps as [[|dep deps]|]; reflexivity. Qed.

(** *** create *)

Lemma validUpload_file req :
  validUpload req = true ->
  exists file,
    cr_file req = Some file
    /\ existsb (String.eqb (mimetype file)) Routes.allowedMimeTypes = true
    /\ (Routes.maxSize <? size file)%Z = false.
Proof.
  unfold validUpload. destruct (cr_file req) as [file|]; [|discriminate].
  intros H. apply andb_true_iff in H as [H1 H2].
  exists file. repeat split; [exact H1|]. now apply negb_true_iff in H2.
Qed.

(** A creation request that passes the upload checks, when the uploaded
    file can be saved. *)
Lemma create_run e st req file path :
  cr_file req = Some file ->
  existsb (String.eqb (mimetype file)) Routes.allowedMimeTypes = true ->
  (Routes.maxSize <? size file)%Z = false ->
  saveUploadedFile e (buffer file) (originalname file) (uuid e 0) = Ok path ->
  let d := createdRow e req file in
  let st1 := set_documents (documents st ++ [d]) st in
  let st2 := snd (Storage.updateDocument st1 (uuid e 0)
                    (Routes.wordFilePathPatch path)) in
  exists (ns : list Notification.t) (k : nat),
    handler (Routes.createDocument req) e st =
    (mkResponse 201
       (DocumentJson (Some (applyPatch (Routes.wordFilePathPatch path) d))),
     mkRun (set_notifications (notifications st ++ ns) st2) k [])
    /\ map Notification.userId ns
       = map User.id (Storage.getUsersByRole st approver).
Proof.
  intros Hfile Hmime Hsize Hsave d st1 st2.
  destruct (forEach_createNotification e (uuid e 0) "new_document"
              (fun _ => Routes.newDocumentMessage d)
              (Storage.getUsersByRole st approver)
              (mkRun st2 1 [])) as (ns & k & Hrun & Hids).
  exists ns, k. split; [|exact Hids].
  unfold Routes.createDocument. rewrite Hfile, Hmime, Hsize. cbn [negb].
  run_handler. unfold Storage.createDocument at 1 2. run_more.
  cbn [Doc.id]. rewrite Hsave. run_more.
  match goal with
  | |- context [forEach ?l ?f e ?s] =>
      match type of Hrun with
      | forEach ?l' ?f' e ?s' = _ =>
          change (forEach l f e s) with (forEach l' f' e s')
      end
  end.
  rewrite Hrun. reflexivity.
Qed.

(** When saving the uploaded file throws, the row is there all the same. *)
Lemma create_run_unsaved e st req file msg :
  cr_file req = Some file ->
  existsb (String.eqb (mimetype file)) Routes.allowedMimeTypes = true ->
  (Routes.maxSize <? size file)%Z = false ->
  saveUploadedFile e (buffer file) (originalname file) (uuid e 0) = Throws msg ->
  handler (Routes.createDocument req) e st =
  (mkResponse 500 (Message msg),
   mkRun (set_documents (documents st ++ [createdRow e req file]) st) 1 []).
Proof.
  intros Hfile Hmime Hsize Hsave.
  unfold Routes.createDocument. rewrite Hfile, Hmime, Hsize. cbn [negb].
  run_handler. unfold Storage.createDocument at 1 2. run_more.
  cbn [Doc.id]. rewrite Hsave. reflexivity.
Qed.

(** ** The workflow state machine *)

(** C2 (as the code has it).  The issue handler looks at no status: for
    every document the id resolves to, Pending, Declined and Issued ones
    included, it answers 200 and stores the row with status Issued and
    the issuedBy, issuerName, issueRemarks and issuedAt of the request;
    it fails only with 404 when the id resolves to nothing, and then the
    store is left as it was. *)
Theorem issue_needs_no_approval :
  forall (e : Env) (st : Store) (id : string) (req : IssueRequest),
    let out := handler (Routes.issue id req) e st in
    match Storage.getDocument st id with
    | Some d =>
        exists d' : Doc.t,
          fst out = mkResponse 200 (DocumentJson (Some d'))
          /\ Storage.getDocument (store (snd out)) id = Some d'
          /\ Doc.status d' = Issued
          /\ Doc.issuedBy d' = is_issuedBy req
          /\ Doc.issuerName d' = is_issuerName req
          /\ Doc.issueRemarks d' = is_remarks req
          /\ Doc.issuedAt d' = Some (clock e 0)
    | None =>
        fst out = mkResponse 404 (Message "Document not found")
        /\ store (snd out) = st
    end.
Proof.
  intros e st id req out. subst out.
  destruct (Storage.getDocument st id) as [d|] eqn:Hd.
  - rewrite (issue_run e st id req d Hd). eexists.
    split; [reflexivity|]. split; [|repeat split].
    destruct (Js.truthy (Doc.approvedBy d)); run_more;
      rewrite ?getDocument_after_create;
      apply (updateDocument_found st id _ d Hd).
  - rewrite (issue_missing e st id req Hd). now split.
Qed.

(** C2, refuted as stated: issuing the Pending document d3 answers 200
    and leaves it Issued. *)
Lemma issue_on_pending_counterexample :
  let out := handler (Routes.issue "d3"
                        (mkIssueRequest (Some "u-issuer") (Some "Ira Issuer")
                           None))
               Sample.env Sample.st in
  option_map Doc.status (Storage.getDocument Sample.st "d3") = Some Pending
  /\ code (fst out) = 200
  /\ option_map Doc.status (Storage.getDocument (store (snd out)) "d3")
     = Some Issued
  /\ ~ (400 <= code (fst out) /\ documents (store (snd out)) = documents Sample.st).
Proof.
  cbv zeta. repeat split; try reflexivity.
  intros [Hcode _]. vm_compute in Hcode. lia.
Qed.

(** C3 (as the code has it).  The approve handler checks neither the
    remarks nor the approver: for every document the id resolves to and
    every request, empty or missing remarks and an unknown approvedBy
    included, it answers 200, stores the row with status Approved and the
    approvalRemarks, approvedBy and approvedAt of the request, and adds
    one notification per issuer followed by one for the preparer; it
    fails only with 404 when the id resolves to nothing, and then the
    store is left as it was and no notification is created. *)
Theorem approve_checks_no_remarks :
  forall (e : Env) (st : Store) (id : string) (req : ApproveRequest),
    let out := handler (Routes.approve id req) e st in
    match Storage.getDocument st id with
    | Some d =>
        exists d' : Doc.t,
          fst out = mkResponse 200 (DocumentJson (Some d'))
          /\ Storage.getDocument (store (snd out)) id = Some d'
          /\ Doc.status d' = Approved
          /\ Doc.approvalRemarks d' = ap_approvalRemarks req
          /\ Doc.approvedBy d' = ap_approvedBy req
          /\ Doc.approvedAt d' = Some (clock e 0)
          /\ map Notification.userId (added st (store (snd out)))
             = map User.id (Storage.getUsersByRole st issuer)
               ++ [Doc.preparedBy d]
    | None =>
        fst out = mkResponse 404 (Message "Document not found")
        /\ store (snd out) = st
    end.
Proof.
  intros e st id req out. subst out.
  destruct (Storage.getDocument st id) as [d|] eqn:Hd.
  - destruct (approve_run e st id req d Hd) as (ns & k & -> & Hids).
    eexists. split; [reflexivity|]. run_more.
    split.
    { change (Storage.getDocument (set_notifications ?l ?s) id)
        with (Storage.getDocument s id).
      rewrite getDocument_afterDepartments.
      apply (updateDocument_found st id _ d Hd). }
    repeat (split; [reflexivity|]).
    rewrite (added_app st ns); [exact Hids | reflexivity].
  - rewrite (approve_missing e st id req Hd). now split.
Qed.

(** C3, refuted as stated: approving the Pending document d3 with empty
    remarks answers 200, leaves it Approved and creates two
    notifications. *)
Lemma approve_empty_remarks_counterexample :
  let out := handler (Routes.approve "d3"
                        (mkApproveRequest (Some "") (Some "u-approver")
                           None None))
               Sample.env Sample.st in
  code (fst out) = 200
  /\ option_map Doc.status (Storage.getDocument (store (snd out)) "d3")
     = Some Approved
  /\ map Notification.userId (added Sample.st (store (snd out)))
     = ["u-issuer"; "u-creator"]
  /\ ~ (400 <= code (fst out)
        /\ option_map Doc.status (Storage.getDocument (store (snd out)) "d3")
           = Some Pending
        /\ added Sample.st (store (snd out)) = []).
Proof.
  cbv zeta. repeat split; try reflexivity.
  intros [Hcode _]. vm_compute in Hcode. lia.
Qed.

(** ** Revision numbers of a document number *)

Lemma revisionKeys_after_update st id p :
  revisionKeys (snd (Storage.updateDocument st id p)) = revisionKeys st.
Proof.
  unfold revisionKeys, Storage.updateDocument. cbn. rewrite map_map.
  apply map_ext. intros d. now destruct (Doc.id d =? id).
Qed.

Lemma revisionKeys_afterDepartments st id deps :
  revisionKeys (afterDepartments st id deps) = revisionKeys st.
Proof. destruct deps as [[|dep deps]|]; reflexivity. Qed.

Lemma revisionKeys_after_create st newId now u did msg ty :
  revisionKeys (snd (Storage.createNotification st newId now u did msg ty))
  = revisionKeys st.
Proof. reflexivity. Qed.

Lemma revisionKeys_after_approve e st id req :
  revisionKeys (store (snd (handler (Routes.approve id req) e st)))
  = revisionKeys st.
Proof.
  destruct (Storage.getDocument st id) as [d|] eqn:Hd.
  - destruct (approve_run e st id req d Hd) as (ns & k & -> & _). run_more.
    change (revisionKeys (set_notifications ?l ?s)) with (revisionKeys s).
    now rewrite revisionKeys_afterDepartments, revisionKeys_after_update.
  - now rewrite (approve_missing e st id req Hd).
Qed.

Lemma revisionKeys_after_decline e st id remarks :
  revisionKeys (store (snd (handler (Routes.decline id remarks) e st)))
  = revisionKeys st.
Proof.
  destruct (Storage.getDocument st id) as [d|] eqn:Hd.
  - rewrite (decline_run e st id remarks d Hd). run_more.
    now rewrite revisionKeys_after_create, revisionKeys_after_update.
  - now rewrite (decline_missing e st id remarks Hd).
Qed.

Lemma revisionKeys_after_issue e st id req :
  revisionKeys (store (snd (handler (Routes.issue id req) e st)))
  = revisionKeys st.
Proof.
  destruct (Storage.getDocument st id) as [d|] eqn:Hd.
  - rewrite (issue_run e st id req d Hd).
    destruct (Js.truthy (Doc.approvedBy d)); run_more;
      now rewrite ?revisionKeys_after_create, revisionKeys_after_update.
  - now rewrite (issue_missing e st id req Hd).
Qed.

Lemma revisionKeys_after_createDocument e st req :
  validUpload req = true ->
  revisionKeys (store (snd (handler (Routes.createDocument req) e st)))
  = revisionKeys st ++ [(cr_docNumber req, requestedRevision req)].
Proof.
  intros Hvalid.
  destruct (validUpload_file req Hvalid) as (file & Hfile & Hmime & Hsize).
  destruct (saveUploadedFile e (buffer file) (originalname file) (uuid e 0))
    as [path|msg] eqn:Hsave.
  - destruct (create_run e st req file path Hfile Hmime Hsize Hsave)
      as (ns & k & -> & _). run_more.
    change (revisionKeys (set_notifications ?l ?s)) with (revisionKeys s).
    rewrite revisionKeys_after_update. unfold revisionKeys. cbn.
    now rewrite map_app.
  - rewrite (create_run_unsaved e st req file msg Hfile Hmime Hsize Hsave).
    unfold revisionKeys. cbn. now rewrite map_app.
Qed.

(** C8 (as the code has it).  The creation handler compares the new
    revisionNo with nothing: every request that passes the upload checks
    adds a row for its docNumber and revisionNo, whether or not a row
    with that pair exists.  The revisionNo values of a docNumber therefore
    stay pairwise distinct across a creation exactly when the new pair is
    not among the rows already there; approve, decline and issue change
    no docNumber and no revisionNo, so they keep the pairs as they are. *)
Theorem create_adds_the_row_unchecked :
  forall (e : Env) (st : Store),
    (forall req : CreateRequest,
        validUpload req = true ->
        let st' := store (snd (handler (Routes.createDocument req) e st)) in
        revisionKeys st'
        = revisionKeys st ++ [(cr_docNumber req, requestedRevision req)]
        /\ (distinctRevisions st ->
            (distinctRevisions st' <->
             ~ In (cr_docNumber req, requestedRevision req) (revisionKeys st))))
    /\ (forall id req,
          revisionKeys (store (snd (handler (Routes.approve id req) e st)))
          = revisionKeys st)
    /\ (forall id remarks,
          revisionKeys (store (snd (handler (Routes.decline id remarks) e st)))
          = revisionKeys st)
    /\ (forall id req,
          revisionKeys (store (snd (handler (Routes.issue id req) e st)))
          = revisionKeys st).
Proof.
  intros e st. split; [|split; [|split]].
  - intros req Hvalid st'. subst st'.
    pose proof (revisionKeys_after_createDocument e st req Hvalid) as Hkeys.
    split; [exact Hkeys|].
    intros Hdistinct. unfold distinctRevisions. rewrite Hkeys. split.
    + intros Hnodup Hin.
      apply NoDup_remove_2 in Hnodup. apply Hnodup.
      rewrite app_nil_r. exact Hin.
    + intros Hfresh. apply NoDup_app; [exact Hdistinct | | ].
      * constructor; [intros [] | constructor].
      * intros k Hk [<- | []]. now apply Hfresh.
  - apply revisionKeys_after_approve.
  - apply revisionKeys_after_decline.
  - apply revisionKeys_after_issue.
Qed.

Lemma sample_distinctRevisions : distinctRevisions Sample.st.
Proof.
  unfold distinctRevisions. vm_compute.
  repeat constructor; cbn; intuition discriminate.
Qed.

Lemma create_adds_the_row_unchecked_witness :
  validUpload Sample.createQa2 = true
  /\ distinctRevisions Sample.st
  /\ distinctRevisions
       (store (snd (handler (Routes.createDocument Sample.createQa2)
                      Sample.env Sample.st))).
Proof.
  split; [reflexivity|]. split; [exact sample_distinctRevisions|].
  destruct (create_adds_the_row_unchecked Sample.env Sample.st) as [Hcreate _].
  destruct (Hcreate Sample.createQa2 eq_refl) as [_ Hiff].
  apply (Hiff sample_distinctRevisions).
  vm_compute. intuition discriminate.
Defined.

(** C8, refuted as stated: QA-001 has a row for revision 1, and a
    creation request for QA-001 revision 1 is answered 201 and adds a
    second one, after which the revisions of QA-001 are not distinct. *)
Lemma create_duplicate_revision_counterexample :
  let out := handler (Routes.createDocument Sample.createQa1)
               Sample.env Sample.st in
  In ("QA-001", Js.Num 1) (revisionKeys Sample.st)
  /\ distinctRevisions Sample.st
  /\ code (fst out) = 201
  /\ length (documents (store (snd out))) = S (length (documents Sample.st))
  /\ ~ distinctRevisions (store (snd out)).
Proof.
  cbv zeta. split; [vm_compute; tauto|].
  split; [exact sample_distinctRevisions|].
  split; [reflexivity|]. split; [reflexivity|].
  unfold distinctRevisions. intros Hnodup. vm_compute in Hnodup.
  inversion Hnodup as [|k0 l0 _ Hrest]; subst.
  inversion Hrest as [|k1 l1 Hfresh _]; subst.
  apply Hfresh. cbn. tauto.
Qed.

(** ** Notification targets *)

(** C5 (as the code has it).  Each transition addresses its
    notifications by the table, one call of [createNotification] per
    entry and in this order, with no removal of repeated users: a
    creation, once the upload is saved, one per approver; an approval one
    per issuer and then the preparer; a decline the preparer; an issue
    the preparer and then the approver when approvedBy is set.  A user
    listed twice (the preparer who is an issuer, or who approved the
    document) is notified twice, and nobody outside the table is
    notified. *)
Theorem notifications_follow_the_table :
  forall (e : Env) (st : Store),
    (forall req file path,
        cr_file req = Some file ->
        validUpload req = true ->
        saveUploadedFile e (buffer file) (originalname file) (uuid e 0)
        = Ok path ->
        targets st (handler (Routes.createDocument req) e st)
        = map User.id (Storage.getUsersByRole st approver))
    /\ (forall id req d,
          Storage.getDocument st id = Some d ->
          targets st (handler (Routes.approve id req) e st)
          = map User.id (Storage.getUsersByRole st issuer)
            ++ [Doc.preparedBy d])
    /\ (forall id remarks d,
          Storage.getDocument st id = Some d ->
          targets st (handler (Routes.decline id remarks) e st)
          = [Doc.preparedBy d])
    /\ (forall id req d,
          Storage.getDocument st id = Some d ->
          targets st (handler (Routes.issue id req) e st)
          = match Doc.approvedBy d with
            | Some a => if a =? "" then [Doc.preparedBy d]
                        else [Doc.preparedBy d; a]
            | None => [Doc.preparedBy d]
            end).
Proof.
  intros e st. unfold targets. split; [|split; [|split]].
  - intros req file path Hfile Hvalid Hsave.
    destruct (validUpload_file req Hvalid) as (file' & Hfile' & Hmime & Hsize).
    rewrite Hfile in Hfile'. injection Hfile' as <-.
    destruct (create_run e st req file path Hfile Hmime Hsize Hsave)
      as (ns & k & -> & Hids).
    rewrite (added_app st ns); [exact Hids | reflexivity].
  - intros id req d Hd.
    destruct (approve_run e st id req d Hd) as (ns & k & -> & Hids).
    rewrite (added_app st ns); [exact Hids | reflexivity].
  - intros id remarks d Hd. rewrite (decline_run e st id remarks d Hd).
    added_now. reflexivity.
  - intros id req d Hd. rewrite (issue_run e st id req d Hd).
    destruct (Doc.approvedBy d) as [a|]; cbn [Js.truthy Js.show].
    + destruct (a =? ""); cbn [negb]; added_now; reflexivity.
    + added_now. reflexivity.
Qed.

Lemma notifications_follow_the_table_witness :
  targets Sample.st
    (handler (Routes.issue "d4"
                (mkIssueRequest (Some "u-issuer") (Some "Ira Issuer") None))
       Sample.env Sample.st)
  = ["u-creator"; "u-approver"].
Proof.
  destruct (notifications_follow_the_table Sample.env Sample.st)
    as (_ & _ & _ & Hissue).
  exact (Hissue "d4"
           (mkIssueRequest (Some "u-issuer") (Some "Ira Issuer") None)
           Sample.approvedDoc eq_refl).
Defined.

(** C5, refuted as stated: issuing d5, which its preparer approved,
    sends that user two notifications for the one transition. *)
Lemma issue_notifies_twice_counterexample :
  let out := handler (Routes.issue "d5"
                        (mkIssueRequest (Some "u-issuer") (Some "Ira Issuer")
                           None))
               Sample.env Sample.st in
  targets Sample.st out = ["u-creator"; "u-creator"]
  /\ ~ NoDup (targets Sample.st out).
Proof.
  cbv zeta. split; [reflexivity|].
  intros Hnodup. vm_compute in Hnodup.
  inversion Hnodup as [|u l Hfresh _]; subst.
  apply Hfresh. now left.
Qed.

(** ** Controlled distribution *)

Lemma servePdf_run e st user uid d :
  Doc.status d = Issued ->
  Js.truthy (Doc.wordFilePath d) = true ->
  let c := issuedCopy e st uid view d in
  let st1 := set_controlCopies (controlCopies st ++ [c]) st in
  let info := Distribution.controlCopyInfo e user c (clock e 2) in
  let w := Js.show (Doc.wordFilePath d) in
  handler (Distribution.servePdf user uid d) e st =
  match convertWordToPDF e w d info with
  | Throws msg =>
      (mkResponse 500 (Message msg),
       mkRun st1 3 [CommitControlCopy c; Render w d info])
  | Ok pdfPath =>
      (match readFile e pdfPath with
       | Ok pdfBuffer => mkResponse 200 (PdfBytes pdfBuffer)
       | Throws msg => mkResponse 500 (Message msg)
       end,
       mkRun st1 3 [CommitControlCopy c; Render w d info; ReadFile pdfPath])
  end.
Proof.
  intros Hstatus Hfile c st1 info w. subst c st1 info w.
  unfold Distribution.servePdf, Distribution.renderAndRead, issuedCopy.
  rewrite Hstatus, Hfile. cbn [Status_eqb negb].
  run_handler. unfold Storage.createControlCopy. run_more. cbn [app].
  destruct (convertWordToPDF e _ d _) as [pdfPath|msg]; [|reflexivity].
  run_more. destruct (readFile e pdfPath); reflexivity.
Qed.

Lemma servePrint_run e st user uid d :
  Doc.status d = Issued ->
  Js.truthy (Doc.wordFilePath d) = true ->
  let c := issuedCopy e st uid print d in
  let l := printLogOf e c in
  let st1 := set_printLogs (printLogs st ++ [l])
               (set_controlCopies (controlCopies st ++ [c]) st) in
  let info := Distribution.controlCopyInfo e user c (clock e 4) in
  let w := Js.show (Doc.wordFilePath d) in
  handler (Distribution.servePrint user uid d) e st =
  match convertWordToPDF e w d info with
  | Throws msg =>
      (mkResponse 500 (Message msg),
       mkRun st1 5 [CommitControlCopy c; CommitPrintLog l; Render w d info])
  | Ok pdfPath =>
      (match readFile e pdfPath with
       | Ok pdfBuffer => mkResponse 200 (PdfBytes pdfBuffer)
       | Throws msg => mkResponse 500 (Message msg)
       end,
       mkRun st1 5 [CommitControlCopy c; CommitPrintLog l; Render w d info;
                    ReadFile pdfPath])
  end.
Proof.
  intros Hstatus Hfile c l st1 info w. subst c l st1 info w.
  unfold Distribution.servePrint, Distribution.renderAndRead, issuedCopy,
    printLogOf.
  rewrite Hstatus, Hfile. cbn [Status_eqb negb].
  run_handler. unfold Storage.createControlCopy, Storage.createPrintLog.
  run_more. cbn [app].
  destruct (convertWordToPDF e _ d _) as [pdfPath|msg]; [|reflexivity].
  run_more. destruct (readFile e pdfPath); reflexivity.
Qed.

(** A row that is not issued, or has no Word file, is refused before
    anything is written. *)
Lemma servePdf_refused e st user uid d :
  Doc.status d <> Issued \/ Js.truthy (Doc.wordFilePath d) = false ->
  exists r, handler (Distribution.servePdf user uid d) e st
            = (r, mkRun st 0 [])
            /\ (code r = 403 \/ code r = 404).
Proof.
  intros Hno. unfold Distribution.servePdf.
  destruct (Status_eqb (Doc.status d) Issued) eqn:Hs; cbn [negb].
  - destruct Hno as [Hne | ->].
    + destruct (Doc.status d); discriminate || now destruct Hne.
    + eexists. split; [reflexivity | now right].
  - eexists. split; [reflexivity | now left].
Qed.

Lemma servePrint_refused e st user uid d :
  Doc.status d <> Issued \/ Js.truthy (Doc.wordFilePath d) = false ->
  exists r, handler (Distribution.servePrint user uid d) e st
            = (r, mkRun st 0 [])
            /\ (code r = 403 \/ code r = 404).
Proof.
  intros Hno. unfold Distribution.servePrint.
  destruct (Status_eqb (Doc.status d) Issued) eqn:Hs; cbn [negb].
  - destruct Hno as [Hne | ->].
    + destruct (Doc.status d); discriminate || now destruct Hne.
    + eexists. split; [reflexivity | now right].
  - eexists. split; [reflexivity | now left].
Qed.

Lemma Status_eqb_eq a b : Status_eqb a b = true <-> a = b.
Proof. destruct a, b; cbn; split; congruence. Qed.

(** A request is let through to a row exactly when [admittedRow] names
    one; the PDF handler then goes on to serve that row, and is refused
    before the ledger otherwise. *)
Lemma pdf_admitted e st id uid version :
  match admittedRow st id uid version with
  | Some (user, d) =>
      handler (Distribution.pdf id uid version) e st
      = handler (Distribution.servePdf user uid d) e st
      /\ Doc.status d = Issued
      /\ Js.truthy (Doc.wordFilePath d) = true
  | None =>
      refusedBeforeLedger st (handler (Distribution.pdf id uid version) e st)
  end.
Proof.
  assert (Hserve : forall user d,
            handler (Distribution.pdf id uid version) e st
            = handler (Distribution.servePdf user uid d) e st ->
            match (if Status_eqb (Doc.status d) Issued
                      && Js.truthy (Doc.wordFilePath d)
                   then Some (user, d) else None) with
            | Some (user, d) =>
                handler (Distribution.pdf id uid version) e st
                = handler (Distribution.servePdf user uid d) e st
                /\ Doc.status d = Issued
                /\ Js.truthy (Doc.wordFilePath d) = true
            | None =>
                refusedBeforeLedger st
                  (handler (Distribution.pdf id uid version) e st)
            end).
  { intros user d ->.
    destruct (Status_eqb (Doc.status d) Issued) eqn:Hs.
    - destruct (Js.truthy (Doc.wordFilePath d)) eqn:Hf; cbn [andb].
      + split; [reflexivity|]. split; [now apply Status_eqb_eq | exact Hf].
      + destruct (servePdf_refused e st user uid d (or_intror Hf))
          as (r & -> & Hcode).
        unfold refusedBeforeLedger. cbn [fst snd trace store]. tauto.
    - cbn [andb].
      assert (Hne : Doc.status d <> Issued).
      { intros Heq. apply Status_eqb_eq in Heq. congruence. }
      destruct (servePdf_refused e st user uid d (or_introl Hne))
        as (r & -> & Hcode).
      unfold refusedBeforeLedger. cbn [fst snd trace store]. tauto. }
  unfold admittedRow, revisionSet.
  destruct (Js.truthy uid) eqn:Huid; cbn [negb].
  2:{ unfold Distribution.pdf. rewrite Huid. cbn [negb]. run_handler.
      unfold refusedBeforeLedger. cbn. tauto. }
  destruct (Storage.getUser st (Js.show uid)) as [user|] eqn:Huser.
  2:{ unfold Distribution.pdf. rewrite Huid. cbn [negb]. run_handler.
      rewrite Huser. unfold refusedBeforeLedger. cbn. tauto. }
  destruct (Storage.getDocument st id) as [document|] eqn:Hdoc.
  2:{ unfold Distribution.pdf. rewrite Huid. cbn [negb]. run_handler.
      rewrite Huser. run_more. rewrite Hdoc. unfold refusedBeforeLedger.
      cbn. tauto. }
  destruct (filter _ (Storage.getDocumentsByStatus st Issued))
    as [|first rest] eqn:Hset.
  { unfold Distribution.pdf. rewrite Huid. cbn [negb]. run_handler.
    rewrite Huser. run_more. rewrite Hdoc. run_more. rewrite Hset.
    unfold refusedBeforeLedger. cbn. tauto. }
  cbv zeta.
  assert (Hpolicy :
    handler (Distribution.pdf id uid version) e st
    = handler
        (bind (Distribution.resolveVersion
                 "Access denied. Only master copy users can access specific versions."
                 "Access denied. Only the latest version can be accessed. Please contact administrator for previous versions."
                 user document version (first :: rest)
                 (reduceLatest (first :: rest) first))
              (Distribution.servePdf user uid)) e st).
  { unfold Distribution.pdf. rewrite Huid. cbn [negb]. run_handler.
    rewrite Huser. run_more. rewrite Hdoc. run_more. rewrite Hset.
    reflexivity. }
  destruct version as [v|].
  - destruct (Js.isNaN (Js.parseInt v)) eqn:Hnan.
    { rewrite Hpolicy. unfold Distribution.resolveVersion. rewrite Hnan.
      run_handler. unfold refusedBeforeLedger. cbn. tauto. }
    destruct (User.masterCopyAccess user) eqn:Hmaster; cbn [negb].
    2:{ rewrite Hpolicy. unfold Distribution.resolveVersion.
        rewrite Hnan, Hmaster. run_handler. unfold refusedBeforeLedger.
        cbn. tauto. }
    destruct (find _ (first :: rest)) as [requestedDoc|] eqn:Hfind.
    2:{ rewrite Hpolicy. unfold Distribution.resolveVersion.
        rewrite Hnan, Hmaster, Hfind. run_handler.
        unfold refusedBeforeLedger. cbn. tauto. }
    destruct (Storage.getDocument st (Doc.id requestedDoc)) as [d|] eqn:Hagain;
      apply Hserve; rewrite Hpolicy; unfold Distribution.resolveVersion;
      rewrite Hnan, Hmaster, Hfind; cbn [negb]; run_handler; rewrite Hagain;
      reflexivity.
  - destruct (negb (User.masterCopyAccess user) && _) eqn:Hdenied.
    + rewrite Hpolicy. unfold Distribution.resolveVersion. rewrite Hdenied.
      run_handler. unfold refusedBeforeLedger. cbn. tauto.
    + apply Hserve. rewrite Hpolicy. unfold Distribution.resolveVersion.
      rewrite Hdenied. reflexivity.
Qed.

(** The same for the print handler. *)
Lemma print_admitted e st id uid version :
  match admittedRow st id uid version with
  | Some (user, d) =>
      handler (Distribution.print id uid version) e st
      = handler (Distribution.servePrint user uid d) e st
      /\ Doc.status d = Issued
      /\ Js.truthy (Doc.wordFilePath d) = true
  | None =>
      refusedBeforeLedger st (handler (Distribution.print id uid version) e st)
  end.
Proof.
  assert (Hserve : forall user d,
            handler (Distribution.print id uid version) e st
            = handler (Distribution.servePrint user uid d) e st ->
            match (if Status_eqb (Doc.status d) Issued
                      && Js.truthy (Doc.wordFilePath d)
                   then Some (user, d) else None) with
            | Some (user, d) =>
                handler (Distribution.print id uid version) e st
                = handler (Distribution.servePrint user uid d) e st
                /\ Doc.status d = Issued
                /\ Js.truthy (Doc.wordFilePath d) = true
            | None =>
                refusedBeforeLedger st
                  (handler (Distribution.print id uid version) e st)
            end).
  { intros user d ->.
    destruct (Status_eqb (Doc.status d) Issued) eqn:Hs.
    - destruct (Js.truthy (Doc.wordFilePath d)) eqn:Hf; cbn [andb].
      + split; [reflexivity|]. split; [now apply Status_eqb_eq | exact Hf].
      + destruct (servePrint_refused e st user uid d (or_intror Hf))
          as (r & -> & Hcode).
        unfold refusedBeforeLedger. cbn [fst snd trace store]. tauto.
    - cbn [andb].
      assert (Hne : Doc.status d <> Issued).
      { intros Heq. apply Status_eqb_eq in Heq. congruence. }
      destruct (servePrint_refused e st user uid d (or_introl Hne))
        as (r & -> & Hcode).
      unfold refusedBeforeLedger. cbn [fst snd trace store]. tauto. }
  unfold admittedRow, revisionSet.
  destruct (Js.truthy uid) eqn:Huid; cbn [negb].
  2:{ unfold Distribution.print. rewrite Huid. cbn [negb]. run_handler.
      unfold refusedBeforeLedger. cbn. tauto. }
  destruct (Storage.getUser st (Js.show uid)) as [user|] eqn:Huser.
  2:{ unfold Distribution.print. rewrite Huid. cbn [negb]. run_handler.
      rewrite Huser. unfold refusedBeforeLedger. cbn. tauto. }
  destruct (Storage.getDocument st id) as [document|] eqn:Hdoc.
  2:{ unfold Distribution.print. rewrite Huid. cbn [negb]. run_handler.
      rewrite Huser. run_more. rewrite Hdoc. unfold refusedBeforeLedger.
      cbn. tauto. }
  destruct (filter _ (Storage.getDocumentsByStatus st Issued))
    as [|first rest] eqn:Hset.
  { unfold Distribution.print. rewrite Huid. cbn [negb]. run_handler.
    rewrite Huser. run_more. rewrite Hdoc. run_more. rewrite Hset.
    unfold refusedBeforeLedger. cbn. tauto. }
  cbv zeta.
  assert (Hpolicy :
    handler (Distribution.print id uid version) e st
    = handler
        (bind (Distribution.resolveVersion
                 "Access denied. Only master copy users can print specific versions."
                 "Access denied. Only the latest version can be printed. Please contact administrator for previous versions."
                 user document version (first :: rest)
                 (reduceLatest (first :: rest) first))
              (Distribution.servePrint user uid)) e st).
  { unfold Distribution.print. rewrite Huid. cbn [negb]. run_handler.
    rewrite Huser. run_more. rewrite Hdoc. run_more. rewrite Hset.
    reflexivity. }
  destruct version as [v|].
  - destruct (Js.isNaN (Js.parseInt v)) eqn:Hnan.
    { rewrite Hpolicy. unfold Distribution.resolveVersion. rewrite Hnan.
      run_handler. unfold refusedBeforeLedger. cbn. tauto. }
    destruct (User.masterCopyAccess user) eqn:Hmaster; cbn [negb].
    2:{ rewrite Hpolicy. unfold Distribution.resolveVersion.
        rewrite Hnan, Hmaster. run_handler. unfold refusedBeforeLedger.
        cbn. tauto. }
    destruct (find _ (first :: rest)) as [requestedDoc|] eqn:Hfind.
    2:{ rewrite Hpolicy. unfold Distribution.resolveVersion.
        rewrite Hnan, Hmaster, Hfind. run_handler.
        unfold refusedBeforeLedger. cbn. tauto. }
    destruct (Storage.getDocument st (Doc.id requestedDoc)) as [d|] eqn:Hagain;
      apply Hserve; rewrite Hpolicy; unfold Distribution.resolveVersion;
      rewrite Hnan, Hmaster, Hfind; cbn [negb]; run_handler; rewrite Hagain;
      reflexivity.
  - destruct (negb (User.masterCopyAccess user) && _) eqn:Hdenied.
    + rewrite Hpolicy. unfold Distribution.resolveVersion. rewrite Hdenied.
      run_handler. unfold refusedBeforeLedger. cbn. tauto.
    + apply Hserve. rewrite Hpolicy. unfold Distribution.resolveVersion.
      rewrite Hdenied. reflexivity.
Qed.

(** C7.  A PDF or print request that passes the checks of its handler
    (the user and the document exist, the document number has issued
    revisions, the version policy lets the request through, the row to
    serve is issued and has a Word file) first commits the ControlCopy
    row with the next copy number of the document (and, for print, then
    the PrintLog row that refers to it) and only afterwards calls the
    rendering pipeline, with that copy number.  The rows stay in the
    store whatever the pipeline answers: when rendering throws, the
    request is answered 500 with the error message and the store holds
    the committed rows.  A request that fails one of the checks is
    answered 400, 403 or 404 and calls and writes nothing. *)
Theorem copy_is_committed_before_rendering :
  forall (e : Env) (st : Store) (id : string) (uid version : option string),
    let viewed := handler (Distribution.pdf id uid version) e st in
    let printed := handler (Distribution.print id uid version) e st in
    match admittedRow st id uid version with
    | None =>
        refusedBeforeLedger st viewed /\ refusedBeforeLedger st printed
    | Some (user, d) =>
        let w := Js.show (Doc.wordFilePath d) in
        (let c := issuedCopy e st uid view d in
         let info := Distribution.controlCopyInfo e user c (clock e 2) in
         store (snd viewed) = set_controlCopies (controlCopies st ++ [c]) st
         /\ match convertWordToPDF e w d info with
            | Throws msg =>
                trace (snd viewed) = [CommitControlCopy c; Render w d info]
                /\ fst viewed = mkResponse 500 (Message msg)
            | Ok pdfPath =>
                trace (snd viewed)
                = [CommitControlCopy c; Render w d info; ReadFile pdfPath]
                /\ fst viewed
                   = match readFile e pdfPath with
                     | Ok pdfBuffer => mkResponse 200 (PdfBytes pdfBuffer)
                     | Throws msg => mkResponse 500 (Message msg)
                     end
            end)
        /\
        (let c := issuedCopy e st uid print d in
         let l := printLogOf e c in
         let info := Distribution.controlCopyInfo e user c (clock e 4) in
         store (snd printed)
         = set_printLogs (printLogs st ++ [l])
             (set_controlCopies (controlCopies st ++ [c]) st)
         /\ match convertWordToPDF e w d info with
            | Throws msg =>
                trace (snd printed)
                = [CommitControlCopy c; CommitPrintLog l; Render w d info]
                /\ fst printed = mkResponse 500 (Message msg)
            | Ok pdfPath =>
                trace (snd printed)
                = [CommitControlCopy c; CommitPrintLog l; Render w d info;
                   ReadFile pdfPath]
                /\ fst printed
                   = match readFile e pdfPath with
                     | Ok pdfBuffer => mkResponse 200 (PdfBytes pdfBuffer)
                     | Throws msg => mkResponse 500 (Message msg)
                     end
            end)
    end.
Proof.
  intros e st id uid version viewed printed. subst viewed printed.
  pose proof (pdf_admitted e st id uid version) as Hpdf.
  pose proof (print_admitted e st id uid version) as Hprint.
  destruct (admittedRow st id uid version) as [[user d]|]; [|now split].
  destruct Hpdf as (-> & Hissued & Hfile).
  destruct Hprint as (-> & _ & _).
  cbv zeta. split.
  - rewrite (servePdf_run e st user uid d Hissued Hfile). cbv zeta.
    destruct (convertWordToPDF e _ d _) as [pdfPath|msg]; cbn [fst snd store trace];
      repeat split.
  - rewrite (servePrint_run e st user uid d Hissued Hfile). cbv zeta.
    destruct (convertWordToPDF e _ d _) as [pdfPath|msg]; cbn [fst snd store trace];
      repeat split.
Qed.

Lemma copy_is_committed_before_rendering_witness :
  let out := handler (Distribution.pdf "d1" (Some "u-creator") None)
               Sample.envRenderFails Sample.st in
  admittedRow Sample.st "d1" (Some "u-creator") None
  = Some (Sample.creatorUser, Sample.qa1)
  /\ fst out = mkResponse 500 (Message "Chromium not found in PATH")
  /\ map ControlCopy.copyNumber (controlCopies (store (snd out))) = [1]
  /\ exists c w d info,
       trace (snd out) = [CommitControlCopy c; Render w d info]
       /\ cci_controlCopyNumber info = 1.
Proof.
  cbv zeta. split; [reflexivity|].
  pose proof (copy_is_committed_before_rendering Sample.envRenderFails
                Sample.st "d1" (Some "u-creator") None) as H.
  cbv zeta in H.
  change (admittedRow Sample.st "d1" (Some "u-creator") None)
    with (Some (Sample.creatorUser, Sample.qa1)) in H.
  cbv beta iota in H. destruct H as [[Hstore Hrender] _].
  change (convertWordToPDF Sample.envRenderFails ?w ?d ?i)
    with (@Throws string "Chromium not found in PATH") in Hrender.
  cbv beta iota in Hrender. destruct Hrender as [Htrace Hanswer].
  split; [exact Hanswer|]. split.
  - rewrite Hstore. reflexivity.
  - do 4 eexists. split; [exact Htrace | reflexivity].
Defined.

(** ** The version list *)

(** C10.  For an existing user without master copy access, the version
    list of a document number that has no issued revision is answered
    200 with an array of one element, which is null: the fold over the
    empty revision set yields [undefined], and the handler neither
    answers 404 nor returns an empty list. *)
Theorem versions_of_no_issued_revision :
  forall (e : Env) (st : Store) (docNumber : string) (uid : option string)
         (u : User.t),
    Js.truthy uid = true ->
    Storage.getUser st (Js.show uid) = Some u ->
    User.masterCopyAccess u = false ->
    revisionSet st docNumber = [] ->
    handler (Distribution.versions docNumber uid) e st
    = (mkResponse 200 (DocumentList [None]), mkRun st 0 []).
Proof.
  intros e st docNumber uid u Huid Hu Hmaster Hnone.
  unfold Distribution.versions. rewrite Huid. cbn [negb].
  run_handler. rewrite Hu. run_more. rewrite Hmaster.
  unfold revisionSet in Hnone. rewrite Hnone. reflexivity.
Qed.

Lemma versions_of_no_issued_revision_witness :
  handler (Distribution.versions "QA-002" (Some "u-creator"))
    Sample.env Sample.st
  = (mkResponse 200 (DocumentList [None]), mkRun Sample.st 0 []).
Proof.
  apply (versions_of_no_issued_revision Sample.env Sample.st "QA-002"
           (Some "u-creator") Sample.creatorUser); reflexivity.
Defined.

(** ** The version access policy *)

Lemma getDocument_unique st x :
  NoDup (map Doc.id (documents st)) ->
  In x (documents st) ->
  Storage.getDocument st (Doc.id x) = Some x.
Proof.
  unfold Storage.getDocument. induction (documents st) as [|d l IH];
    intros Hnodup Hin; [destruct Hin|].
  cbn [map] in Hnodup. apply NoDup_cons_iff in Hnodup as [Hfresh Hnodup].
  cbn [find]. destruct Hin as [-> | Hin].
  - now rewrite String.eqb_refl.
  - destruct (String.eqb_spec (Doc.id d) (Doc.id x)) as [Heq | _].
    + exfalso. apply Hfresh. rewrite Heq. now apply in_map.
    + now apply IH.
Qed.

Lemma latest_is_addressed st id d first rest :
  NoDup (map Doc.id (documents st)) ->
  Storage.getDocument st id = Some d ->
  revisionSet st (Doc.docNumber d) = first :: rest ->
  (Doc.id d =? Doc.id (reduceLatest (first :: rest) first)) = true ->
  d = reduceLatest (first :: rest) first.
Proof.
  intros Hnodup Hd Hset Hid. apply String.eqb_eq in Hid.
  assert (Hsub : forall x, In x (first :: rest) -> In x (documents st)).
  { rewrite <- Hset. unfold revisionSet, Storage.getDocumentsByStatus.
    intros x Hx. apply filter_In in Hx as [Hx _].
    apply filter_In in Hx as [Hx _]. exact Hx. }
  assert (Hin : In (reduceLatest (first :: rest) first) (documents st)).
  { apply Hsub.
    destruct (reduceLatest_In (first :: rest) first) as [<- | Hin];
      [now left | exact Hin]. }
  pose proof (getDocument_unique st _ Hnodup Hin) as Hlatest.
  unfold Storage.getDocument in Hd. pose proof (find_some _ _ Hd) as [_ Hidd].
  apply String.eqb_eq in Hidd. rewrite <- Hid, Hidd in Hlatest.
  unfold Storage.getDocument in Hlatest. congruence.
Qed.

Lemma revisionSet_issued st docNumber x :
  In x (revisionSet st docNumber) ->
  Doc.status x = Issued /\ Doc.docNumber x = docNumber /\ In x (documents st).
Proof.
  unfold revisionSet, Storage.getDocumentsByStatus. intros Hx.
  apply filter_In in Hx as [Hx Hnum]. apply filter_In in Hx as [Hx Hs].
  split; [now apply Status_eqb_eq|]. split; [now apply String.eqb_eq | exact Hx].
Qed.

Section WithoutMasterAccess.

Variables (e : Env) (st : Store) (id : string) (uid : option string).
Variables (u : User.t) (d first : Doc.t) (rest : list Doc.t).
Hypothesis Huid : Js.truthy uid = true.
Hypothesis Huser : Storage.getUser st (Js.show uid) = Some u.
Hypothesis Hmaster : User.masterCopyAccess u = false.
Hypothesis Hdoc : Storage.getDocument st id = Some d.
Hypothesis Hset : revisionSet st (Doc.docNumber d) = first :: rest.

Let latest := reduceLatest (first :: rest) first.

Ltac enter_policy :=
  rewrite Huid; cbn [negb]; run_handler; rewrite Huser; run_more;
  rewrite Hdoc; run_more;
  unfold revisionSet in Hset; rewrite Hset;
  unfold Distribution.resolveVersion.

Lemma pdf_explicit_version_denied v :
  Js.isNaN (Js.parseInt v) = false ->
  exists msg,
    handler (Distribution.pdf id uid (Some v)) e st
    = (mkResponse 403 (Message msg), mkRun st 0 []).
Proof using Huid Huser Hmaster Hdoc Hset.
  intros Hv. unfold Distribution.pdf. enter_policy.
  rewrite Hv, Hmaster. eexists. reflexivity.
Qed.

Lemma print_explicit_version_denied v :
  Js.isNaN (Js.parseInt v) = false ->
  exists msg,
    handler (Distribution.print id uid (Some v)) e st
    = (mkResponse 403 (Message msg), mkRun st 0 []).
Proof using Huid Huser Hmaster Hdoc Hset.
  intros Hv. unfold Distribution.print. enter_policy.
  rewrite Hv, Hmaster. eexists. reflexivity.
Qed.

Lemma pdf_omitted_version :
  if Doc.id d =? Doc.id latest
  then handler (Distribution.pdf id uid None) e st
       = handler (Distribution.servePdf u uid d) e st
  else exists msg,
         handler (Distribution.pdf id uid None) e st
         = (mkResponse 403 (Message msg), mkRun st 0 []).
Proof using Huid Huser Hmaster Hdoc Hset.
  subst latest. unfold Distribution.pdf. enter_policy. rewrite Hmaster.
  destruct (Doc.id d =? Doc.id _); cbn [negb andb];
    [reflexivity | eexists; reflexivity].
Qed.

Lemma print_omitted_version :
  if Doc.id d =? Doc.id latest
  then handler (Distribution.print id uid None) e st
       = handler (Distribution.servePrint u uid d) e st
  else exists msg,
         handler (Distribution.print id uid None) e st
         = (mkResponse 403 (Message msg), mkRun st 0 []).
Proof using Huid Huser Hmaster Hdoc Hset.
  subst latest. unfold Distribution.print. enter_policy. rewrite Hmaster.
  destruct (Doc.id d =? Doc.id _); cbn [negb andb];
    [reflexivity | eexists; reflexivity].
Qed.

End WithoutMasterAccess.

(** C4 (as the code has it).  For a user without master copy access and
    a document number with a non-empty set of issued revisions, both the
    PDF and the print handler
    - reject every request that names a revisionNo with 403, the latest
      one included, writing nothing;
    - reject a request that names none with 403 when the document the
      route addresses is not the latest issued revision, writing nothing;
    - serve the addressed document when it is the latest issued revision:
      the request continues with the status and file checks, the control
      copy and the rendering of that row, which (document ids being
      unique) is the latest issued row itself, and is answered 200 with
      the rendered bytes when the row has a Word file and the pipeline
      answers. *)
Theorem without_master_access_only_the_addressed_latest :
  forall (e : Env) (st : Store) (id : string) (uid : option string)
         (u : User.t) (d first : Doc.t) (rest : list Doc.t),
    Js.truthy uid = true ->
    Storage.getUser st (Js.show uid) = Some u ->
    User.masterCopyAccess u = false ->
    Storage.getDocument st id = Some d ->
    revisionSet st (Doc.docNumber d) = first :: rest ->
    let latest := reduceLatest (first :: rest) first in
    let denied (out : Response * Run) :=
      code (fst out) = 403 /\ snd out = mkRun st 0 [] in
    (forall v, Js.isNaN (Js.parseInt v) = false ->
       denied (handler (Distribution.pdf id uid (Some v)) e st)
       /\ denied (handler (Distribution.print id uid (Some v)) e st))
    /\ ((Doc.id d =? Doc.id latest) = false ->
        denied (handler (Distribution.pdf id uid None) e st)
        /\ denied (handler (Distribution.print id uid None) e st))
    /\ ((Doc.id d =? Doc.id latest) = true ->
        handler (Distribution.pdf id uid None) e st
        = handler (Distribution.servePdf u uid d) e st
        /\ handler (Distribution.print id uid None) e st
           = handler (Distribution.servePrint u uid d) e st
        /\ (NoDup (map Doc.id (documents st)) ->
            d = latest
            /\ Doc.status d = Issued
            /\ (Js.truthy (Doc.wordFilePath d) = true ->
                forall pdfPath pdfBuffer,
                  convertWordToPDF e (Js.show (Doc.wordFilePath d)) d
                    (Distribution.controlCopyInfo e u
                       (issuedCopy e st uid view d) (clock e 2))
                  = Ok pdfPath ->
                  readFile e pdfPath = Ok pdfBuffer ->
                  fst (handler (Distribution.pdf id uid None) e st)
                  = mkResponse 200 (PdfBytes pdfBuffer)
                  /\ controlCopies
                       (store (snd (handler (Distribution.pdf id uid None)
                                      e st)))
                     = controlCopies st ++ [issuedCopy e st uid view d])
            /\ (Js.truthy (Doc.wordFilePath d) = true ->
                forall pdfPath pdfBuffer,
                  convertWordToPDF e (Js.show (Doc.wordFilePath d)) d
                    (Distribution.controlCopyInfo e u
                       (issuedCopy e st uid print d) (clock e 4))
                  = Ok pdfPath ->
                  readFile e pdfPath = Ok pdfBuffer ->
                  fst (handler (Distribution.print id uid None) e st)
                  = mkResponse 200 (PdfBytes pdfBuffer)
                  /\ controlCopies
                       (store (snd (handler (Distribution.print id uid None)
                                      e st)))
                     = controlCopies st ++ [issuedCopy e st uid print d]))).
Proof.
  intros e st id uid u d first rest Huid Huser Hmaster Hdoc Hset latest denied.
  subst denied. split; [|split].
  - intros v Hv.
    destruct (pdf_explicit_version_denied e st id uid u d first rest
                Huid Huser Hmaster Hdoc Hset v Hv) as [m1 ->].
    destruct (print_explicit_version_denied e st id uid u d first rest
                Huid Huser Hmaster Hdoc Hset v Hv) as [m2 ->].
    now repeat split.
  - intros Hid.
    pose proof (pdf_omitted_version e st id uid u d first rest
                  Huid Huser Hmaster Hdoc Hset) as Hpdf.
    pose proof (print_omitted_version e st id uid u d first rest
                  Huid Huser Hmaster Hdoc Hset) as Hprint.
    cbv zeta in Hpdf, Hprint. fold latest in Hpdf, Hprint.
    rewrite Hid in Hpdf, Hprint.
    destruct Hpdf as [m1 ->]. destruct Hprint as [m2 ->]. now repeat split.
  - intros Hid.
    pose proof (pdf_omitted_version e st id uid u d first rest
                  Huid Huser Hmaster Hdoc Hset) as Hpdf.
    pose proof (print_omitted_version e st id uid u d first rest
                  Huid Huser Hmaster Hdoc Hset) as Hprint.
    cbv zeta in Hpdf, Hprint. fold latest in Hpdf, Hprint.
    rewrite Hid in Hpdf, Hprint.
    split; [exact Hpdf|]. split; [exact Hprint|].
    intros Hnodup.
    pose proof (latest_is_addressed st id d first rest Hnodup Hdoc Hset Hid)
      as Hlatest.
    assert (Hissued : Doc.status d = Issued).
    { apply (revisionSet_issued st (Doc.docNumber d)).
      rewrite Hset, Hlatest.
      destruct (reduceLatest_In (first :: rest) first) as [<- | Hin];
        [now left | exact Hin]. }
    split; [exact Hlatest|]. split; [exact Hissued|].
    split; intros Hfile pdfPath pdfBuffer Hrender Hread.
    + rewrite Hpdf, (servePdf_run e st u uid d Hissued Hfile).
      cbv zeta. rewrite Hrender. cbn [fst snd store]. rewrite Hread.
      now split.
    + rewrite Hprint, (servePrint_run e st u uid d Hissued Hfile).
      cbv zeta. rewrite Hrender. cbn [fst snd store]. rewrite Hread.
      now split.
Qed.

Lemma sample_ids_unique : NoDup (map Doc.id (documents Sample.st)).
Proof.
  vm_compute. repeat constructor; cbn; intuition discriminate.
Qed.

Lemma without_master_access_only_the_addressed_latest_witness :
  code (fst (handler (Distribution.pdf "d1" (Some "u-creator") (Some "0"))
               Sample.env Sample.st)) = 403
  /\ fst (handler (Distribution.pdf "d1" (Some "u-creator") None)
            Sample.env Sample.st)
     = mkResponse 200 (PdfBytes "%PDF-1.7").
Proof.
  destruct (without_master_access_only_the_addressed_latest
              Sample.env Sample.st "d1" (Some "u-creator")
              Sample.creatorUser Sample.qa1 Sample.qa0 [Sample.qa1]
              eq_refl eq_refl eq_refl eq_refl eq_refl)
    as (Hexplicit & _ & Hserved).
  split.
  - apply (Hexplicit "0" eq_refl).
  - destruct (Hserved eq_refl) as (_ & _ & Hunique).
    destruct (Hunique sample_ids_unique) as (_ & _ & Hanswer & _).
    apply (Hanswer eq_refl "pdfs/QA-001_cc1.pdf" "%PDF-1.7");
      reflexivity.
Defined.

(** C4, refuted as stated: revision 1 is the latest issued revision of
    QA-001, and a user without master copy access who names revision 1
    is answered 403 by both handlers; the same user naming no revision
    on the route of revision 0 is answered 403 too and is not served
    revision 1.  Nothing is written to the ledger. *)
Lemma explicit_latest_denied_counterexample :
  let run version id handle :=
    handler (handle id (Some "u-creator") version) Sample.env Sample.st in
  latestVersion (revisionSet Sample.st "QA-001") = Some Sample.qa1
  /\ User.masterCopyAccess Sample.creatorUser = false
  /\ code (fst (run (Some "1") "d1" Distribution.pdf)) = 403
  /\ code (fst (run (Some "1") "d1" Distribution.print)) = 403
  /\ code (fst (run None "d0" Distribution.pdf)) = 403
  /\ code (fst (run None "d0" Distribution.print)) = 403
  /\ controlCopies (store (snd (run (Some "1") "d1" Distribution.pdf))) = []
  /\ controlCopies (store (snd (run None "d0" Distribution.pdf))) = [].
Proof.
  cbv zeta. repeat split; reflexivity.
Qed.
